(** * PerformanceMonitor: a shallow embedding of [performance_monitor.py]

    The monitor object, the environment it talks to (clock, psutil, the
    DuckDB connection, threads, files) and the methods of the class
    [PerformanceMonitor] are written as Rocq definitions, method by method.

    Conventions.
    - Python floats are exact rationals ([Q]); rounding is not modelled, and
      an int that is stored where floats are stored is the same rational.
    - Python dicts keep insertion order, so they are association lists with
      unique keys ([dict]).
    - A method is a computation in the monad [M]: it threads the monitor
      object ([self]) and the environment ([world]) and may raise a Python
      exception; an exception keeps every mutation made before it.
    - Every call into the environment ([time.time()], psutil, [join], ...)
      consumes one index of the environment's answer functions ([Oracle]).
    - The class takes no lock. Where two threads matter, each statement
      that touches [self.metrics] is one atomic [Action] and a run is any
      interleaving of the two threads' actions.  *)

From Stdlib Require Import List String Ascii ZArith QArith Qabs Qround.
From Stdlib Require Import Lia Lqa Bool Sorted Permutation DecimalString.
Import ListNotations.

Local Open Scope string_scope.
Local Open Scope list_scope.
Local Open Scope Z_scope.
Local Open Scope Q_scope.

(** ** Python values *)

Inductive Exn : Type :=
| ZeroDivisionError
| IndexError
| ValueError (msg : string)
| KeyError (key : string)
| RuntimeError (msg : string)
| FileNotFoundError (path : string)
| EngineError (msg : string).

(** [a > b] on floats. *)
Definition Qgtb (a b : Q) : bool := negb (Qle_bool a b).

(** [str(n)] for an int. *)
Definition str_of_Z (n : Z) : string :=
  match n with
  | Z0 => "0"
  | Zpos p => NilZero.string_of_uint (Pos.to_uint p)
  | Zneg p => ("-" ++ NilZero.string_of_uint (Pos.to_uint p))%string
  end.

(** Nearest integer, ties to even: the rounding of [format(x, '.Nf')]. *)
Definition round_half_even (q : Q) : Z :=
  let f := Qfloor q in
  match Qcompare (q - inject_Z f) (1 # 2) with
  | Lt => f
  | Gt => (f + 1)%Z
  | Eq => if Z.even f then f else (f + 1)%Z
  end.

Fixpoint zero_pad (width : nat) (s : string) : string :=
  match width with
  | O => s
  | S w => if Nat.ltb (String.length s) width then zero_pad w ("0" ++ s)%string else s
  end.

(** [f"{x:.<digits>f}"]. *)
Definition format_f (digits : nat) (x : Q) : string :=
  let scale := (10 ^ Z.of_nat digits)%Z in
  let n := round_half_even (Qabs x * inject_Z scale) in
  let body :=
    (str_of_Z (n / scale) ++
     match digits with
     | O => ""
     | _ => "." ++ zero_pad digits (str_of_Z (n mod scale))
     end)%string in
  if QMicromega.Qlt_bool x 0 then ("-" ++ body)%string else body.

(** [s.startswith(p)]. *)
Definition startswith (s p : string) : bool := String.prefix p s.

(** ** Insertion-ordered dictionaries *)

Definition dict (V : Type) : Type := list (string * V).

Fixpoint dict_get {V : Type} (k : string) (d : dict V) : option V :=
  match d with
  | [] => None
  | (k', v) :: rest => if String.eqb k k' then Some v else dict_get k rest
  end.

(** [k in d]. *)
Definition dict_contains {V : Type} (k : string) (d : dict V) : bool :=
  match dict_get k d with Some _ => true | None => false end.

(** [d[k] = v]: an existing key keeps its position, a new key goes last. *)
Fixpoint dict_set {V : Type} (k : string) (v : V) (d : dict V) : dict V :=
  match d with
  | [] => [(k, v)]
  | (k', v') :: rest =>
      if String.eqb k k' then (k, v) :: rest else (k', v') :: dict_set k v rest
  end.

Definition dict_keys {V : Type} (d : dict V) : list string := map fst d.
Definition dict_values {V : Type} (d : dict V) : list V := map snd d.

(** ** The data model of the monitor *)

(** One entry of [metrics["events"]]: [{"time": ..., "name": ...}]. *)
Record Event : Type := mkEvent { time : Q; name : string }.

(** [self.metrics]: six parallel sample columns, the per-query durations and
    the event log. *)
Record Metrics : Type := mkMetrics {
  timestamp : list Q;
  cpu_percent : list Q;
  memory_percent : list Q;
  memory_used_mb : list Q;
  disk_read_mb : list Q;
  disk_write_mb : list Q;
  query_times_ms : dict (list Q);
  events : list Event
}.

(** The keys of [self.metrics] that hold a sample column. *)
Inductive Column : Type :=
| Timestamp | CpuPercent | MemoryPercent | MemoryUsedMb | DiskReadMb | DiskWriteMb.

Definition column (c : Column) (m : Metrics) : list Q :=
  match c with
  | Timestamp => timestamp m
  | CpuPercent => cpu_percent m
  | MemoryPercent => memory_percent m
  | MemoryUsedMb => memory_used_mb m
  | DiskReadMb => disk_read_mb m
  | DiskWriteMb => disk_write_mb m
  end.

Definition column_key (c : Column) : string :=
  match c with
  | Timestamp => "timestamp"
  | CpuPercent => "cpu_percent"
  | MemoryPercent => "memory_percent"
  | MemoryUsedMb => "memory_used_mb"
  | DiskReadMb => "disk_read_mb"
  | DiskWriteMb => "disk_write_mb"
  end.

(** [self.metrics[key].append(v)] for a sample column. *)
Definition append_column (c : Column) (v : Q) (m : Metrics) : Metrics :=
  match c with
  | Timestamp =>
      mkMetrics (timestamp m ++ [v]) (cpu_percent m) (memory_percent m)
        (memory_used_mb m) (disk_read_mb m) (disk_write_mb m)
        (query_times_ms m) (events m)
  | CpuPercent =>
      mkMetrics (timestamp m) (cpu_percent m ++ [v]) (memory_percent m)
        (memory_used_mb m) (disk_read_mb m) (disk_write_mb m)
        (query_times_ms m) (events m)
  | MemoryPercent =>
      mkMetrics (timestamp m) (cpu_percent m) (memory_percent m ++ [v])
        (memory_used_mb m) (disk_read_mb m) (disk_write_mb m)
        (query_times_ms m) (events m)
  | MemoryUsedMb =>
      mkMetrics (timestamp m) (cpu_percent m) (memory_percent m)
        (memory_used_mb m ++ [v]) (disk_read_mb m) (disk_write_mb m)
        (query_times_ms m) (events m)
  | DiskReadMb =>
      mkMetrics (timestamp m) (cpu_percent m) (memory_percent m)
        (memory_used_mb m) (disk_read_mb m ++ [v]) (disk_write_mb m)
        (query_times_ms m) (events m)
  | DiskWriteMb =>
      mkMetrics (timestamp m) (cpu_percent m) (memory_percent m)
        (memory_used_mb m) (disk_read_mb m) (disk_write_mb m ++ [v])
        (query_times_ms m) (events m)
  end.

(** [self.metrics["events"].append(e)]. *)
Definition append_event (e : Event) (m : Metrics) : Metrics :=
  mkMetrics (timestamp m) (cpu_percent m) (memory_percent m)
    (memory_used_mb m) (disk_read_mb m) (disk_write_mb m)
    (query_times_ms m) (events m ++ [e]).

Definition set_query_times (d : dict (list Q)) (m : Metrics) : Metrics :=
  mkMetrics (timestamp m) (cpu_percent m) (memory_percent m)
    (memory_used_mb m) (disk_read_mb m) (disk_write_mb m)
    d (events m).

(** [if q not in self.metrics["query_times_ms"]:
        self.metrics["query_times_ms"][q] = []]. *)
Definition ensure_query_key (q : string) (m : Metrics) : Metrics :=
  if negb (dict_contains q (query_times_ms m))
  then set_query_times (dict_set q [] (query_times_ms m)) m
  else m.

(** [self.metrics["query_times_ms"][q].append(d)]; the lookup raises
    [KeyError] on a missing key. *)
Definition append_query_time (q : string) (d : Q) (m : Metrics) : Exn + Metrics :=
  match dict_get q (query_times_ms m) with
  | None => inl (KeyError q)
  | Some l => inr (set_query_times (dict_set q (l ++ [d]) (query_times_ms m)) m)
  end.

(** The metrics dictionary literal of [__init__]. *)
Definition empty_metrics : Metrics := mkMetrics [] [] [] [] [] [] [] [].

(** The result of [psutil.disk_io_counters()], as far as the monitor reads it. *)
Record DiskIO : Type := mkDiskIO { read_bytes : Z; write_bytes : Z }.

(** [self.system_info]. [os.cpu_count()] may be [None]. *)
Record SystemInfo : Type := mkSystemInfo {
  os : string;
  python_version : string;
  cpu_count : option Z;
  total_memory_gb : Q;
  duckdb_version : string
}.

(** A [threading.Thread] running [_monitor_loop]. *)
Record Thread : Type := mkThread { daemon : bool; started : bool }.

(** The attributes of a [PerformanceMonitor]. [monitor_thread] is [None]
    until [start_monitoring] sets the attribute ([hasattr] is false). *)
Record PerformanceMonitor : Type := mkMonitor {
  output_dir : string;
  metrics : Metrics;
  start_time : Q;
  last_disk_io : DiskIO;
  last_disk_time : Q;
  system_info : SystemInfo;
  monitoring : bool;
  monitor_interval : Q;
  monitor_thread : option Thread
}.

Definition set_metrics (x : Metrics) (s : PerformanceMonitor) : PerformanceMonitor :=
  mkMonitor (output_dir s) x (start_time s) (last_disk_io s) (last_disk_time s)
    (system_info s) (monitoring s) (monitor_interval s) (monitor_thread s).

Definition set_last_disk_io (x : DiskIO) (s : PerformanceMonitor) : PerformanceMonitor :=
  mkMonitor (output_dir s) (metrics s) (start_time s) x (last_disk_time s)
    (system_info s) (monitoring s) (monitor_interval s) (monitor_thread s).

Definition set_last_disk_time (x : Q) (s : PerformanceMonitor) : PerformanceMonitor :=
  mkMonitor (output_dir s) (metrics s) (start_time s) (last_disk_io s) x
    (system_info s) (monitoring s) (monitor_interval s) (monitor_thread s).

Definition set_monitoring (x : bool) (s : PerformanceMonitor) : PerformanceMonitor :=
  mkMonitor (output_dir s) (metrics s) (start_time s) (last_disk_io s)
    (last_disk_time s) (system_info s) x (monitor_interval s) (monitor_thread s).

Definition set_monitor_interval (x : Q) (s : PerformanceMonitor) : PerformanceMonitor :=
  mkMonitor (output_dir s) (metrics s) (start_time s) (last_disk_io s)
    (last_disk_time s) (system_info s) (monitoring s) x (monitor_thread s).

Definition set_monitor_thread (x : option Thread) (s : PerformanceMonitor)
  : PerformanceMonitor :=
  mkMonitor (output_dir s) (metrics s) (start_time s) (last_disk_io s)
    (last_disk_time s) (system_info s) (monitoring s) (monitor_interval s) x.

(** ** The environment *)

(** Matplotlib figures, as far as the report code determines them: the
    plotted series, the vertical event markers and the bars. *)
Record Figure : Type := mkFigure {
  fig_series : list (string * list Q * list Q);
  fig_vlines : list (nat * Q);
  fig_bars : list (string * Q)
}.

(** JSON documents, as [json.dump] writes them (objects keep key order). *)
#[local] Set Warnings "-register-all".
Inductive JSON : Type :=
| JNull
| JInt (n : Z)
| JFloat (x : Q)
| JString (s : string)
| JArray (items : list JSON)
| JObject (members : list (string * JSON)).

(** The values interpolated into [report.html], in document order (the
    literal markup between them is fixed text and is left out). *)
Record HtmlReport : Type := mkHtmlReport {
  html_total_duration : string;
  html_avg_cpu : string;
  html_max_cpu : string;
  html_avg_memory : string;
  html_max_memory : string;
  html_system_rows : list (string * string);
  html_query_rows : list (list string);
  html_event_rows : list (string * string)
}.

Inductive FileContent : Type :=
| FJson (doc : JSON)
| FPng (fig : Figure)
| FHtml (page : HtmlReport).

(** What the machine reports about itself. *)
Record Host : Type := mkHost {
  os_name : string;
  version_info : Z * Z * Z;
  os_cpu_count : option Z;
  virtual_memory_total : Z;
  engine_version : string
}.

(** The answers of the environment, by index of the call that asks. *)
Record Oracle : Type := mkOracle {
  time_at : nat -> Q;
  cpu_percent_at : nat -> Q;
  rss_at : nat -> Z;
  memory_percent_at : nat -> Q;
  disk_io_at : nat -> DiskIO;
  join_exits_at : nat -> bool;
  strftime_at : nat -> string
}.

(** Effects the monitor has on the environment, in order. *)
Inductive Effect : Type :=
| EMakedirs (path : string)
| EThreadStart
| EJoin (timeout : Q) (exited : bool)
| ESleep (seconds : Q)
| EPrint (line : string).

Record World : Type := mkWorld {
  oracle : Oracle;
  host : Host;
  step : nat;
  trace : list Effect;
  files : dict FileContent
}.

(** One call into the environment: the next index is used up. *)
Definition tick (w : World) : World :=
  mkWorld (oracle w) (host w) (S (step w)) (trace w) (files w).

Definition emit (e : Effect) (w : World) : World :=
  mkWorld (oracle w) (host w) (step w) (trace w ++ [e]) (files w).

Definition put_file (path : string) (c : FileContent) (w : World) : World :=
  mkWorld (oracle w) (host w) (step w) (trace w) (dict_set path c (files w)).

(** ** The monad of methods *)

Record St : Type := mkSt { world : World; self : PerformanceMonitor }.

Definition M (A : Type) : Type := St -> (Exn + A) * St.

Definition ret {A : Type} (a : A) : M A := fun s => (inr a, s).

Definition bind {A B : Type} (c : M A) (k : A -> M B) : M B :=
  fun s =>
    match c s with
    | (inl e, s') => (inl e, s')
    | (inr a, s') => k a s'
    end.

Definition raise {A : Type} (e : Exn) : M A := fun s => (inl e, s).

Declare Scope py_scope.
Delimit Scope py_scope with py.
Notation "x <- c ;; k" := (bind c (fun x => k))
  (at level 61, c at next level, right associativity) : py_scope.
Notation "c ;; k" := (bind c (fun _ => k))
  (at level 61, right associativity) : py_scope.
Local Open Scope py_scope.

Definition get_self : M PerformanceMonitor := fun s => (inr (self s), s).

Definition modify_self (f : PerformanceMonitor -> PerformanceMonitor) : M unit :=
  fun s => (inr tt, mkSt (world s) (f (self s))).

Definition modify_metrics (f : Metrics -> Metrics) : M unit :=
  modify_self (fun o => set_metrics (f (metrics o)) o).

Definition get_world : M World := fun s => (inr (world s), s).

Definition modify_world (f : World -> World) : M unit :=
  fun s => (inr tt, mkSt (f (world s)) (self s)).

(** Ask the environment: read answer number [step] and move on. *)
Definition ask {A : Type} (f : Oracle -> nat -> A) : M A :=
  fun s =>
    let w := world s in
    (inr (f (oracle w) (step w)), mkSt (tick w) (self s)).

Definition lift_result {A : Type} (r : Exn + A) : M A :=
  match r with inl e => raise e | inr a => ret a end.

(** Python's true division [a / b]. *)
Definition py_div (a b : Q) : M Q :=
  if Qeq_bool b 0 then raise ZeroDivisionError else ret (a / b).
#[global] Arguments py_div : simpl never.

(** [time.time()]. *)
Definition time_time : M Q := ask time_at.

(** [psutil.cpu_percent(interval=...)]. *)
Definition psutil_cpu_percent (interval : Q) : M Q := ask cpu_percent_at.

(** [process.memory_info().rss]. *)
Definition process_memory_info_rss : M Z := ask rss_at.

(** [process.memory_percent()]. *)
Definition process_memory_percent : M Q := ask memory_percent_at.

(** [psutil.disk_io_counters()]. *)
Definition psutil_disk_io_counters : M DiskIO := ask disk_io_at.


(** [print(line)]. *)
Definition print (line : string) : M unit := modify_world (emit (EPrint line)).

(** [os.makedirs(path, exist_ok=True)]. *)
Definition os_makedirs (path : string) : M unit := modify_world (emit (EMakedirs path)).

(** [os.path.join(a, b)] on a POSIX host. *)
Definition os_path_join (a b : string) : string :=
  if startswith b "/" then b
  else if String.eqb a "" then b
  else if String.eqb (substring (String.length a - 1) 1 a) "/" then (a ++ b)%string
  else (a ++ "/" ++ b)%string.

(** [thread.start()], as the calling thread sees it: the thread is marked
    started and the call returns. The steps of the new thread are not run
    here; they are [monitor_loop], and how they mix with the caller's steps
    is the subject of [Interleaving]. *)
Definition thread_start (t : Thread) : M Thread :=
  if started t then raise (RuntimeError "threads can only be started once")
  else (modify_world (emit EThreadStart) ;; ret (mkThread (daemon t) true)).

(** [thread.join(timeout=...)]: waits for the thread at most [timeout]
    seconds and returns in both cases; the environment decides whether the
    thread exited in time. *)
Definition thread_join (t : Thread) (timeout : Q) : M unit :=
  if started t
  then (exited <- ask join_exits_at ;; modify_world (emit (EJoin timeout exited)))
  else raise (RuntimeError "cannot join thread before it is started").

(** A DuckDB connection: what [conn.execute(sql).fetchall()] answers. *)
Definition Connection (R : Type) : Type := string -> Exn + R.

Definition execute_fetchall {R : Type} (conn : Connection R) (sql : string) : M R :=
  lift_result (conn sql).

(** ** The methods of [PerformanceMonitor] *)

(** [".".join(map(str, os.sys.version_info[:3]))]. *)
Definition version_string (v : Z * Z * Z) : string :=
  let '(a, b, c) := v in
  (str_of_Z a ++ "." ++ str_of_Z b ++ "." ++ str_of_Z c)%string.

(** The object before [__init__] has run: no attribute is set yet, and
    [__init__] assigns every one of them. *)
Definition unset_monitor : PerformanceMonitor :=
  mkMonitor "" empty_metrics 0 (mkDiskIO 0 0) 0 (mkSystemInfo "" "" None 0 "")
    false 0 None.

(** [__init__(self, output_dir)]. *)
Definition init (out_dir : string) : M unit :=
  os_makedirs out_dir ;;
  start <- time_time ;;
  disk <- psutil_disk_io_counters ;;
  disk_time <- time_time ;;
  w <- get_world ;;
  let h := host w in
  total_gb <- py_div (inject_Z (virtual_memory_total h)) (inject_Z (1024 ^ 3)) ;;
  modify_self (fun _ =>
    mkMonitor out_dir empty_metrics start disk disk_time
      (mkSystemInfo (os_name h) (version_string (version_info h))
         (os_cpu_count h) total_gb (engine_version h))
      false 1 None).

(** [record_event(self, event_name)]. *)
Definition record_event (event_name : string) : M Q :=
  now <- time_time ;;
  o <- get_self ;;
  modify_metrics (append_event (mkEvent (now - start_time o) event_name)) ;;
  ret now.

(** [capture_point(self)]. *)
Definition capture_point : M unit :=
  now <- time_time ;;
  cpu <- psutil_cpu_percent (1 # 10) ;;
  rss <- process_memory_info_rss ;;
  mem_percent <- process_memory_percent ;;
  current_disk_io <- psutil_disk_io_counters ;;
  o <- get_self ;;
  let io_time_diff := now - last_disk_time o in
  diffs <-
    (if Qgtb io_time_diff 0 then
       r1 <- py_div (inject_Z (read_bytes current_disk_io - read_bytes (last_disk_io o)))
               io_time_diff ;;
       read_diff <- py_div r1 (inject_Z (1024 ^ 2)) ;;
       w1 <- py_div (inject_Z (write_bytes current_disk_io - write_bytes (last_disk_io o)))
               io_time_diff ;;
       write_diff <- py_div w1 (inject_Z (1024 ^ 2)) ;;
       ret (read_diff, write_diff)
     else ret (0, 0)) ;;
  modify_self (set_last_disk_io current_disk_io) ;;
  modify_self (set_last_disk_time now) ;;
  modify_metrics (append_column Timestamp (now - start_time o)) ;;
  modify_metrics (append_column CpuPercent cpu) ;;
  modify_metrics (append_column MemoryPercent mem_percent) ;;
  used_mb <- py_div (inject_Z rss) (inject_Z (1024 ^ 2)) ;;
  modify_metrics (append_column MemoryUsedMb used_mb) ;;
  modify_metrics (append_column DiskReadMb (fst diffs)) ;;
  modify_metrics (append_column DiskWriteMb (snd diffs)).


(** [start_monitoring(self, interval)]. *)
Definition start_monitoring (interval : Q) : M unit :=
  modify_self (set_monitor_interval interval) ;;
  modify_self (set_monitoring true) ;;
  let t := mkThread false false in
  modify_self (set_monitor_thread (Some t)) ;;
  let t := mkThread true (started t) in
  modify_self (set_monitor_thread (Some t)) ;;
  t <- thread_start t ;;
  modify_self (set_monitor_thread (Some t)) ;;
  record_event "Monitoring started" ;;
  ret tt.

(** [stop_monitoring(self)]. *)
Definition stop_monitoring : M unit :=
  modify_self (set_monitoring false) ;;
  o <- get_self ;;
  match monitor_thread o with
  | Some t => thread_join t 2
  | None => ret tt
  end ;;
  record_event "Monitoring stopped" ;;
  ret tt.

(** The two events of [record_query], as the f-strings build their names. *)
Definition query_start_name (query_name : string) : string :=
  ("Query start: " ++ query_name)%string.

Definition query_end_name (query_name : string) (duration_ms : Q) : string :=
  ("Query end: " ++ query_name ++ " (" ++ format_f 2 duration_ms ++ "ms)")%string.

(** [record_query(self, query_name, conn, query_sql)]. *)
Definition record_query {R : Type} (query_name : string) (conn : Connection R)
    (query_sql : string) : M (R * Q) :=
  record_event (query_start_name query_name) ;;
  start <- time_time ;;
  result <- execute_fetchall conn query_sql ;;
  end_time <- time_time ;;
  let duration_ms := (end_time - start) * 1000 in
  modify_metrics (ensure_query_key query_name) ;;
  o <- get_self ;;
  m <- lift_result (append_query_time query_name duration_ms (metrics o)) ;;
  modify_self (set_metrics m) ;;
  record_event (query_end_name query_name duration_ms) ;;
  ret (result, duration_ms).

(** [PerformanceMonitor(output_dir)] in environment [w]. *)
Definition new_monitor (out_dir : string) (w : World) : (Exn + unit) * St :=
  init out_dir (mkSt w unset_monitor).

(** *** Persistence *)

Definition json_floats (l : list Q) : JSON := JArray (map JFloat l).

Definition json_of_event (e : Event) : JSON :=
  JObject [("time", JFloat (time e)); ("name", JString (name e))].

Definition json_of_metrics (m : Metrics) : JSON :=
  JObject
    [("timestamp", json_floats (timestamp m));
     ("cpu_percent", json_floats (cpu_percent m));
     ("memory_percent", json_floats (memory_percent m));
     ("memory_used_mb", json_floats (memory_used_mb m));
     ("disk_read_mb", json_floats (disk_read_mb m));
     ("disk_write_mb", json_floats (disk_write_mb m));
     ("query_times_ms",
      JObject (map (fun kv => (fst kv, json_floats (snd kv))) (query_times_ms m)));
     ("events", JArray (map json_of_event (events m)))].

Definition json_of_system_info (i : SystemInfo) : JSON :=
  JObject
    [("os", JString (os i));
     ("python_version", JString (python_version i));
     ("cpu_count", match cpu_count i with Some n => JInt n | None => JNull end);
     ("total_memory_gb", JFloat (total_memory_gb i));
     ("duckdb_version", JString (duckdb_version i))].

(** The [output_data] dictionary of [save_metrics]. *)
Definition output_data (o : PerformanceMonitor) : JSON :=
  JObject
    [("system_info", json_of_system_info (system_info o));
     ("metrics", json_of_metrics (metrics o))].

(** [save_metrics(self, filename)]. *)
Definition save_metrics (filename : option string) : M string :=
  filename <-
    match filename with
    | None =>
        stamp <- ask strftime_at ;;
        ret ("duckdb_perf_" ++ stamp ++ ".json")%string
    | Some f => ret f
    end ;;
  o <- get_self ;;
  let filepath := os_path_join (output_dir o) filename in
  modify_world (put_file filepath (FJson (output_data o))) ;;
  print ("Performance metrics saved to " ++ filepath)%string ;;
  ret filepath.

(** The member names of a JSON object, in document order. *)
Definition json_keys (j : JSON) : list string :=
  match j with JObject ms => dict_keys ms | _ => [] end.

(** The [data] dictionary the report code reads. *)
Record ReportData : Type := mkReportData {
  data_system_info : SystemInfo;
  data_metrics : Metrics
}.

Definition json_member (k : string) (j : JSON) : option JSON :=
  match j with JObject ms => dict_get k ms | _ => None end.

Definition float_of_json (j : JSON) : option Q :=
  match j with JFloat x => Some x | JInt n => Some (inject_Z n) | _ => None end.

Definition string_of_json (j : JSON) : option string :=
  match j with JString s => Some s | _ => None end.

Fixpoint all_some {A : Type} (l : list (option A)) : option (list A) :=
  match l with
  | [] => Some []
  | Some a :: r => option_map (cons a) (all_some r)
  | None :: _ => None
  end.

Definition floats_of_json (j : JSON) : option (list Q) :=
  match j with JArray l => all_some (map float_of_json l) | _ => None end.

Definition event_of_json (j : JSON) : option Event :=
  match json_member "time" j, json_member "name" j with
  | Some t, Some n =>
      match float_of_json t, string_of_json n with
      | Some t, Some n => Some (mkEvent t n)
      | _, _ => None
      end
  | _, _ => None
  end.

Definition column_of_json (k : string) (j : JSON) : option (list Q) :=
  match json_member k j with Some a => floats_of_json a | None => None end.

Definition metrics_of_json (j : JSON) : option Metrics :=
  match column_of_json "timestamp" j, column_of_json "cpu_percent" j,
        column_of_json "memory_percent" j, column_of_json "memory_used_mb" j,
        column_of_json "disk_read_mb" j, column_of_json "disk_write_mb" j,
        json_member "query_times_ms" j, json_member "events" j with
  | Some ts, Some cpu, Some mp, Some mu, Some dr, Some dw, Some (JObject q), Some (JArray ev) =>
      match all_some (map (fun kv => option_map (pair (fst kv)) (floats_of_json (snd kv))) q),
            all_some (map event_of_json ev) with
      | Some q, Some ev => Some (mkMetrics ts cpu mp mu dr dw q ev)
      | _, _ => None
      end
  | _, _, _, _, _, _, _, _ => None
  end.

Definition system_info_of_json (j : JSON) : option SystemInfo :=
  match json_member "os" j, json_member "python_version" j, json_member "cpu_count" j,
        json_member "total_memory_gb" j, json_member "duckdb_version" j with
  | Some (JString o), Some (JString p), Some c, Some t, Some (JString d) =>
      match (match c with JInt n => Some (Some n) | JNull => Some None | _ => None end),
            float_of_json t with
      | Some c, Some t => Some (mkSystemInfo o p c t d)
      | _, _ => None
      end
  | _, _, _, _, _ => None
  end.

Definition data_of_json (j : JSON) : option ReportData :=
  match json_member "system_info" j, json_member "metrics" j with
  | Some i, Some m =>
      match system_info_of_json i, metrics_of_json m with
      | Some i, Some m => Some (mkReportData i m)
      | _, _ => None
      end
  | _, _ => None
  end.

(** [with open(metrics_file) as f: data = json.load(f)]. A document that
    lacks what the report reads is refused here, at the load. *)
Definition json_load (path : string) : M ReportData :=
  w <- get_world ;;
  match dict_get path (files w) with
  | Some (FJson doc) =>
      match data_of_json doc with
      | Some d => ret d
      | None => raise (KeyError path)
      end
  | Some _ => raise (ValueError "not a JSON document")
  | None => raise (FileNotFoundError path)
  end.

(** *** Report generation *)

(** [sum(l)]. *)
Definition py_sum (l : list Q) : Q := fold_left Qplus l 0.

(** [len(l)] as a number. *)
Definition py_len {A : Type} (l : list A) : Q := inject_Z (Z.of_nat (List.length l)).

(** [max(l)] and [min(l)]: the first extremal item; empty input raises. *)
Definition py_max (l : list Q) : M Q :=
  match l with
  | [] => raise (ValueError "max() arg is an empty sequence")
  | x :: r => ret (fold_left (fun best item => if Qgtb item best then item else best) r x)
  end.

Definition py_min (l : list Q) : M Q :=
  match l with
  | [] => raise (ValueError "min() arg is an empty sequence")
  | x :: r => ret (fold_left (fun best item => if Qgtb best item then item else best) r x)
  end.

(** [l[-1]]. *)
Definition py_last (l : list Q) : M Q :=
  match rev l with
  | [] => raise IndexError
  | x :: _ => ret x
  end.

(** A list comprehension or [for] loop whose body may raise. *)
Fixpoint for_each {A B : Type} (f : A -> M B) (l : list A) : M (list B) :=
  match l with
  | [] => ret []
  | a :: r => b <- f a ;; bs <- for_each f r ;; ret (b :: bs)
  end.

(** [plt.plot(xs, ys)]: matplotlib refuses series of different lengths. *)
Definition plt_plot (label : string) (xs ys : list Q) : M (string * list Q * list Q) :=
  if Nat.eqb (List.length xs) (List.length ys) then ret (label, xs, ys)
  else raise (ValueError "x and y must have same first dimension").

(** [plt.savefig(path)]. *)
Definition plt_savefig (path : string) (fig : Figure) : M unit :=
  modify_world (put_file path (FPng fig)).

(** [_plot_resource_usage(self, data, report_dir)]. *)
Definition plot_resource_usage (data : ReportData) (report_dir : string) : M unit :=
  let m := data_metrics data in
  let timestamps := timestamp m in
  cpu <- plt_plot "CPU Usage" timestamps (cpu_percent m) ;;
  mem <- plt_plot "Memory Usage" timestamps (memory_used_mb m) ;;
  rd <- plt_plot "Read" timestamps (disk_read_mb m) ;;
  wr <- plt_plot "Write" timestamps (disk_write_mb m) ;;
  let marks :=
    flat_map
      (fun event =>
         if startswith (name event) "Query"
         then [(1%nat, time event); (2%nat, time event); (3%nat, time event)]
         else [])
      (events m) in
  plt_savefig (os_path_join report_dir "resource_usage.png")
    (mkFigure [cpu; mem; rd; wr] marks []).

(** [_plot_query_performance(self, data, report_dir)]. *)
Definition plot_query_performance (data : ReportData) (report_dir : string) : M unit :=
  let query_times := query_times_ms (data_metrics data) in
  match query_times with
  | [] => ret tt
  | _ =>
      let query_names := dict_keys query_times in
      avg_times <- for_each (fun times => py_div (py_sum times) (py_len times))
                     (dict_values query_times) ;;
      plt_savefig (os_path_join report_dir "query_performance.png")
        (mkFigure [] [] (combine query_names avg_times))
  end.

(** One entry of [query_summaries]. *)
Record QuerySummary : Type := mkQuerySummary {
  summary_name : string;
  avg_ms : Q;
  min_ms : Q;
  max_ms : Q;
  count : nat
}.

(** The summary statistics at the head of [_generate_html_report]:
    [sum(l) / len(l) if l else 0] and [max(l) if l else 0]. *)
Definition average_or_zero (l : list Q) : M Q :=
  match l with
  | [] => ret 0
  | _ => py_div (py_sum l) (py_len l)
  end.

Definition max_or_zero (l : list Q) : M Q :=
  match l with
  | [] => ret 0
  | _ => py_max l
  end.

(** The loop that fills [query_summaries]. *)
Definition query_summaries (query_times : dict (list Q)) : M (list QuerySummary) :=
  for_each
    (fun kv =>
       let times := snd kv in
       avg_time <- py_div (py_sum times) (py_len times) ;;
       min_time <- py_min times ;;
       max_time <- py_max times ;;
       ret (mkQuerySummary (fst kv) avg_time min_time max_time (List.length times)))
    query_times.

(** [str(os.cpu_count())]. *)
Definition str_of_cpu_count (c : option Z) : string :=
  match c with Some n => str_of_Z n | None => "None" end.

(** [open(path, 'w').write(html_content)]. *)
Definition write_html (path : string) (page : HtmlReport) : M unit :=
  modify_world (put_file path (FHtml page)).

(** [_generate_html_report(self, data, report_dir)]. *)
Definition generate_html_report (data : ReportData) (report_dir : string) : M unit :=
  let info := data_system_info data in
  let m := data_metrics data in
  avg_cpu <- average_or_zero (cpu_percent m) ;;
  max_cpu <- max_or_zero (cpu_percent m) ;;
  avg_memory <- average_or_zero (memory_used_mb m) ;;
  max_memory <- max_or_zero (memory_used_mb m) ;;
  summaries <- query_summaries (query_times_ms m) ;;
  total <- py_last (timestamp m) ;;
  let page :=
    mkHtmlReport
      (format_f 2 total) (format_f 1 avg_cpu) (format_f 1 max_cpu)
      (format_f 1 avg_memory) (format_f 1 max_memory)
      [("OS", os info);
       ("Python Version", python_version info);
       ("CPU Cores", str_of_cpu_count (cpu_count info));
       ("Total Memory", (format_f 2 (total_memory_gb info) ++ " GB")%string);
       ("DuckDB Version", duckdb_version info)]
      (map (fun q =>
              [summary_name q; format_f 2 (avg_ms q); format_f 2 (min_ms q);
               format_f 2 (max_ms q); str_of_Z (Z.of_nat (count q))])
           summaries)
      (map (fun event => (format_f 2 (time event), name event)) (events m)) in
  write_html (os_path_join report_dir "report.html") page.

(** [generate_report(self, metrics_file)]. *)
Definition generate_report (metrics_file : option string) : M string :=
  data <-
    match metrics_file with
    | None => o <- get_self ;; ret (mkReportData (system_info o) (metrics o))
    | Some f => json_load f
    end ;;
  o <- get_self ;;
  let report_dir := os_path_join (output_dir o) "report" in
  os_makedirs report_dir ;;
  plot_resource_usage data report_dir ;;
  plot_query_performance data report_dir ;;
  generate_html_report data report_dir ;;
  print ("Performance report generated in " ++ report_dir)%string ;;
  ret report_dir.

(** The tail of the benchmark script: stop the sampler, save, report. *)
Definition finish_run : M string :=
  record_event "Generating performance report" ;;
  stop_monitoring ;;
  metrics_file <- save_metrics None ;;
  generate_report (Some metrics_file).

(** ** The two threads on the shared store *)

(** The statements of the methods that touch [self.metrics], one action per
    statement; [ASnapshot] is a reader ([save_metrics], [generate_report])
    looking at the whole store. *)
Inductive Action : Type :=
| AAppend (c : Column) (v : Q)
| AEvent (e : Event)
| AEnsureKey (q : string)
| AQueryTime (q : string) (d : Q)
| ASnapshot.

Definition apply_action (a : Action) (m : Metrics) : Metrics :=
  match a with
  | AAppend c v => append_column c v m
  | AEvent e => append_event e m
  | AEnsureKey q => ensure_query_key q m
  | AQueryTime q d =>
      match append_query_time q d m with inr m' => m' | inl _ => m end
  | ASnapshot => m
  end.

(** Run a schedule of actions; the result is the final store and what each
    snapshot saw, in order. *)
Fixpoint run_schedule (l : list Action) (m : Metrics) : Metrics * list Metrics :=
  match l with
  | [] => (m, [])
  | ASnapshot :: r => let '(m', seen) := run_schedule r m in (m', m :: seen)
  | a :: r => run_schedule r (apply_action a m)
  end.

(** The store a schedule leaves, and what its snapshots saw. *)
Definition store_after (l : list Action) (m : Metrics) : Metrics := fst (run_schedule l m).

Definition snapshots (l : list Action) (m : Metrics) : list Metrics := snd (run_schedule l m).

(** One sample, as [capture_point] appends it. *)
Record Sample : Type := mkSample {
  s_elapsed : Q; s_cpu : Q; s_memory_percent : Q; s_memory_used_mb : Q;
  s_disk_read : Q; s_disk_write : Q
}.

(** The six appends that end [capture_point], in source order. *)
Definition sample_actions (s : Sample) : list Action :=
  [AAppend Timestamp (s_elapsed s);
   AAppend CpuPercent (s_cpu s);
   AAppend MemoryPercent (s_memory_percent s);
   AAppend MemoryUsedMb (s_memory_used_mb s);
   AAppend DiskReadMb (s_disk_read s);
   AAppend DiskWriteMb (s_disk_write s)].

(** The sampler thread: one capture after the other. *)
Definition sampler_actions (samples : list Sample) : list Action :=
  flat_map sample_actions samples.

(** The append of [record_event]. *)
Definition event_actions (e : Event) : list Action := [AEvent e].

(** The two statements of [record_query] on [query_times_ms], followed by
    the append of the end event. *)
Definition query_actions (start_event : Event) (q : string) (d : Q) (end_event : Event)
  : list Action :=
  [AEvent start_event; AEnsureKey q; AQueryTime q d; AEvent end_event].

(** All ways to interleave the steps of two threads. *)
Inductive Interleaving {A : Type} : list A -> list A -> list A -> Prop :=
| interleave_done : Interleaving [] [] []
| interleave_left (a : A) (l1 l2 l : list A) :
    Interleaving l1 l2 l -> Interleaving (a :: l1) l2 (a :: l)
| interleave_right (a : A) (l1 l2 l : list A) :
    Interleaving l1 l2 l -> Interleaving l1 (a :: l2) (a :: l).

(** What a schedule appends to a column and to the event log. *)
Definition column_appends (c : Column) (l : list Action) : list Q :=
  flat_map
    (fun a =>
       match a with
       | AAppend c' v =>
           if String.eqb (column_key c) (column_key c') then [v] else []
       | _ => []
       end) l.

Definition event_appends (l : list Action) : list Event :=
  flat_map (fun a => match a with AEvent e => [e] | _ => [] end) l.

(** A thread that never calls [capture_point], and a thread that does
    nothing else (the sampler loop). *)
Definition is_foreground (a : Action) : bool :=
  match a with AAppend _ _ => false | _ => true end.

Definition is_sampler (a : Action) : bool :=
  match a with AAppend _ _ => true | _ => false end.

(** Every column holds the same number of entries: no sample is half
    written. *)
Definition columns_aligned (m : Metrics) : Prop :=
  forall c : Column, List.length (column c m) = List.length (timestamp m).

Definition columns_alignedb (m : Metrics) : bool :=
  forallb (fun c => Nat.eqb (List.length (column c m)) (List.length (timestamp m)))
    [Timestamp; CpuPercent; MemoryPercent; MemoryUsedMb; DiskReadMb; DiskWriteMb].

(** ** Sequences of calls on one thread *)

Inductive Call : Type :=
| CallCapturePoint
| CallRecordEvent (event_name : string)
| CallRecordQuery (query_name : string) (conn : Connection (list string))
    (query_sql : string)
| CallStartMonitoring (interval : Q)
| CallStopMonitoring.

(** A call whose exception the caller catches: the state it left stays. *)
Definition run_call (c : Call) (s : St) : St :=
  match c with
  | CallCapturePoint => snd (capture_point s)
  | CallRecordEvent n => snd (record_event n s)
  | CallRecordQuery n conn sql => snd (record_query n conn sql s)
  | CallStartMonitoring i => snd (start_monitoring i s)
  | CallStopMonitoring => snd (stop_monitoring s)
  end.

Definition run_calls (cs : list Call) (s : St) : St := fold_left (fun s c => run_call c s) cs s.

(** [is_sorted] for the elapsed values of a series. *)
Definition nondecreasing (l : list Q) : Prop := StronglySorted Qle l.

Definition event_times (m : Metrics) : list Q := map time (events m).

(** The clock never goes backward. *)
Definition clock_monotone (o : Oracle) : Prop :=
  forall i j : nat, (i <= j)%nat -> time_at o i <= time_at o j.

(** The durations recorded so far under a query name (none when the key
    is absent). *)
Definition durations_of (q : string) (m : Metrics) : list Q :=
  match dict_get q (query_times_ms m) with Some l => l | None => [] end.

(** The value [capture_point] stores for a disk counter that moved by
    [delta] bytes in [io_time_diff] seconds (both branches of its [if]). *)
Definition disk_rate (delta : Z) (io_time_diff : Q) : Q :=
  if Qgtb io_time_diff 0
  then inject_Z delta / io_time_diff / inject_Z (1024 ^ 2)
  else 0.

(** The sample [capture_point] appends when it runs in state [s]: its five
    environment calls are answered at indices [step .. step + 4]. *)
Definition captured_sample (s : St) : Sample :=
  let w := world s in
  let o := self s in
  let now := time_at (oracle w) (step w) in
  let current_disk_io := disk_io_at (oracle w) (4 + step w) in
  mkSample
    (now - start_time o)
    (cpu_percent_at (oracle w) (1 + step w))
    (memory_percent_at (oracle w) (3 + step w))
    (inject_Z (rss_at (oracle w) (2 + step w)) / inject_Z (1024 ^ 2))
    (disk_rate (read_bytes current_disk_io - read_bytes (last_disk_io o))
       (now - last_disk_time o))
    (disk_rate (write_bytes current_disk_io - write_bytes (last_disk_io o))
       (now - last_disk_time o)).

(** The sampler thread object is either absent or has been started: what
    [__init__] and [start_monitoring] leave behind. *)
Definition thread_ready (o : PerformanceMonitor) : Prop :=
  match monitor_thread o with
  | Some t => started t = true
  | None => True
  end.

(** Both series are in order and no stored elapsed value lies beyond the
    clock reading number [k] (taken relative to [start]). *)
Definition ordered_upto (o : Oracle) (k : nat) (start : Q) (m : Metrics) : Prop :=
  nondecreasing (timestamp m) /\
  nondecreasing (event_times m) /\
  Forall (fun t => t <= time_at o k - start) (timestamp m) /\
  Forall (fun t => t <= time_at o k - start) (event_times m).

(** The invariant of a running monitor: ordered up to the next clock
    reading. *)
Definition series_ordered (s : St) : Prop :=
  ordered_upto (oracle (world s)) (step (world s)) (start_time (self s))
    (metrics (self s)).

(** ** Concrete inputs used by the examples *)

(** A clock that starts at 100 s and advances one second per call, a disk
    that has read [n] MiB and written [2n] MiB at call [n], and a sampler
    thread that never exits within a join timeout. *)
Definition example_oracle : Oracle :=
  mkOracle
    (fun n => inject_Z (Z.of_nat n) + 100)
    (fun _ => 50)
    (fun _ => 2097152%Z)
    (fun _ => 3)
    (fun n => mkDiskIO (Z.of_nat n * 1048576) (Z.of_nat n * 2097152))
    (fun _ => false)
    (fun _ => "20240101_000000").

Definition example_host : Host :=
  mkHost "posix" (3, 11, 4)%Z (Some 8%Z) 17179869184%Z "v0.9.2".

Definition example_world : World := mkWorld example_oracle example_host 0 [] [].

(** A monitor right after construction. *)
Definition example_state : St := snd (new_monitor "./performance_data" example_world).

(** The same monitor after [start_monitoring(1.0)]. *)
Definition example_started : St := snd (start_monitoring 1 example_state).

Definition example_conn : Connection (list string) := fun _ => inr ["42"].

Definition failing_conn : Connection (list string) :=
  fun _ => inl (EngineError "Catalog Error: table does not exist").

Definition example_sample : Sample := mkSample 3 50 3 2 6 12.

(** The same environment with a wall clock that is set back by one second
    while a query runs: readings 0 to 4 are 200 s, the later ones 199 s. *)
Definition backward_oracle : Oracle :=
  mkOracle
    (fun n => if Nat.leb 5 n then 199 else 200)
    (cpu_percent_at example_oracle)
    (rss_at example_oracle)
    (memory_percent_at example_oracle)
    (disk_io_at example_oracle)
    (join_exits_at example_oracle)
    (strftime_at example_oracle).

Definition backward_world : World := mkWorld backward_oracle example_host 0 [] [].

Definition backward_state : St := snd (new_monitor "./performance_data" backward_world).

(** ** The benchmark script, [billion_row_challenge.py] *)




Definition CITY_COUNT : Z := 1000.
Definition CHUNK_SIZE : Z := 10000000.

(** [range(n)]. *)
Definition py_range (n : Z) : list Z := map Z.of_nat (seq 0 (Z.to_nat n)).

(** [chunk_count = (ROW_COUNT + CHUNK_SIZE - 1) // CHUNK_SIZE]. *)
Definition chunk_count (ROW_COUNT : Z) : Z := ((ROW_COUNT + CHUNK_SIZE - 1) / CHUNK_SIZE)%Z.

(** [rows_in_chunk = min(CHUNK_SIZE, ROW_COUNT - i * CHUNK_SIZE)]. *)
Definition rows_in_chunk (ROW_COUNT i : Z) : Z :=
  Z.min CHUNK_SIZE (ROW_COUNT - i * CHUNK_SIZE)%Z.

(** The [(chunk_id, row_count)] arguments of the calls of
    [generate_parquet_file] made by the generation loop, in loop order. *)
Definition chunk_plan (ROW_COUNT : Z) : list (Z * Z) :=
  map (fun i => (i, rows_in_chunk ROW_COUNT i)) (py_range (chunk_count ROW_COUNT)).

(** A [datetime] with minutes and seconds zero: whole days since
    2020-01-01 and the hour of the day. *)
Record datetime : Type := mkDatetime { dt_day : Z; dt_hour : Z }.

Inductive DateError : Type :=
| HourOutOfRange    (* ValueError: hour must be in 0..23 *)
| DateOutOfRange.   (* OverflowError: date value out of range *)

(** [datetime(2020, 1, 1, hour, 0, 0)]. *)
Definition datetime_2020_01_01 (hour : Z) : DateError + datetime :=
  if ((0 <=? hour) && (hour <? 24))%Z then inr (mkDatetime 0 hour)
  else inl HourOutOfRange.

(** The last day a [datetime] can hold, 9999-12-31, counted from
    2020-01-01. *)
Definition last_day : Z := 2914634.

(** [d + timedelta(days=days)] for [days > 0]. *)
Definition add_days (d : datetime) (days : Z) : DateError + datetime :=
  if (dt_day d + days <=? last_day)%Z then inr (mkDatetime (dt_day d + days) (dt_hour d))
  else inl DateOutOfRange.

(** The start of a chunk, as [generate_parquet_file] computes [start_date]
    from [chunk_id] and [row_count]. *)
Definition hours_offset (chunk_id row_count : Z) : Z :=
  (chunk_id * (row_count / CITY_COUNT))%Z.

Definition chunk_start_date (chunk_id row_count : Z) : DateError + datetime :=
  let offset := hours_offset chunk_id row_count in
  let days := (offset / 24)%Z in
  let remaining_hours := (offset mod 24)%Z in
  match datetime_2020_01_01 remaining_hours with
  | inl e => inl e
  | inr start_date =>
      if (days >? 0)%Z then add_days start_date days else inr start_date
  end.

(** Hours between 2020-01-01 00:00 and a [datetime]. *)
Definition hours_since_base (d : datetime) : Z := (24 * dt_day d + dt_hour d)%Z.

(** ** Notions used to state what the methods keep *)

(** [new] is [old] with entries added at the end. *)
Definition extends {A : Type} (old new : list A) : Prop := exists added, new = old ++ added.

Definition is_capture (c : Call) : bool :=
  match c with CallCapturePoint => true | _ => false end.

(** How many samples a sequence of calls takes. *)
Definition count_captures (cs : list Call) : nat := List.length (filter is_capture cs).

(** A sequence of calls that never starts the sampler thread. *)
Definition is_start (c : Call) : bool :=
  match c with CallStartMonitoring _ => true | _ => false end.

Definition sampler_not_started (cs : list Call) : Prop :=
  forallb (fun c => negb (is_start c)) cs = true.

(** The duration table has one entry per query name and no entry without
    a duration. *)
Definition durations_wellformed (m : Metrics) : Prop :=
  NoDup (dict_keys (query_times_ms m)) /\
  Forall (fun kv => snd kv <> []) (query_times_ms m).

(** The columns a report plots against the timestamps have their length. *)
Definition plottable (m : Metrics) : Prop :=
  List.length (cpu_percent m) = List.length (timestamp m) /\
  List.length (memory_used_mb m) = List.length (timestamp m) /\
  List.length (disk_read_mb m) = List.length (timestamp m) /\
  List.length (disk_write_mb m) = List.length (timestamp m).

(** ** Basic facts *)

Lemma dict_get_set_same {V : Type} (k : string) (v : V) (d : dict V) :
  dict_get k (dict_set k v d) = Some v.
Proof.
  induction d as [|[k' v'] rest IH]; simpl.
  - now rewrite String.eqb_refl.
  - destruct (String.eqb k k') eqn:E; simpl.
    + now rewrite String.eqb_refl.
    + now rewrite E.
Qed.

Lemma dict_get_set_other {V : Type} (k k0 : string) (v : V) (d : dict V) :
  k0 <> k -> dict_get k0 (dict_set k v d) = dict_get k0 d.
Proof.
  intros Hne. induction d as [|[k' v'] rest IH]; simpl.
  - destruct (String.eqb_spec k0 k); [contradiction | reflexivity].
  - destruct (String.eqb_spec k k') as [->|Hk]; simpl.
    + destruct (String.eqb_spec k0 k'); [contradiction | reflexivity].
    + now rewrite IH.
Qed.

Lemma Qgtb_true (a b : Q) : Qgtb a b = true <-> b < a.
Proof.
  unfold Qgtb. rewrite negb_true_iff. split.
  - intros H. apply Qnot_le_lt. intros Hle. apply Qle_bool_iff in Hle. congruence.
  - intros H. destruct (Qle_bool a b) eqn:E; [|reflexivity].
    apply Qle_bool_iff in E. exfalso. apply (Qlt_not_le _ _ H E).
Qed.

Lemma py_div_ok (a b : Q) (s : St) : ~ b == 0 -> py_div a b s = (inr (a / b), s).
Proof.
  intros Hb. unfold py_div. destruct (Qeq_bool b 0) eqn:E; [|reflexivity].
  apply Qeq_bool_iff in E. contradiction.
Qed.

(** [record_event] in one step: the clock is read once, the event is
    appended, and the clock reading is the result. *)
Lemma record_event_eq (event_name : string) (s : St) :
  record_event event_name s =
  (inr (time_at (oracle (world s)) (step (world s))),
   mkSt (tick (world s))
     (set_metrics
        (append_event
           (mkEvent (time_at (oracle (world s)) (step (world s)) - start_time (self s))
              event_name)
           (metrics (self s)))
        (self s))).
Proof. reflexivity. Qed.

(** ** Event recorder *)

(** C2, amended. [record_event(name)] reads the clock once as [now], appends
    the pair [(now - start_time, name)] to [events], changes nothing else
    in the monitor, and returns the absolute clock reading [now] (not the
    elapsed value it stored). *)
Theorem record_event_appends_elapsed_returns_now (event_name : string) (s : St) :
  let now := time_at (oracle (world s)) (step (world s)) in
  let r := record_event event_name s in
  fst r = inr now /\
  events (metrics (self (snd r))) =
    events (metrics (self s)) ++ [mkEvent (now - start_time (self s)) event_name] /\
  set_metrics (metrics (self s)) (self (snd r)) = self s /\
  query_times_ms (metrics (self (snd r))) = query_times_ms (metrics (self s)) /\
  (forall c, column c (metrics (self (snd r))) = column c (metrics (self s))).
Proof.
  rewrite record_event_eq. cbn.
  split; [reflexivity|]. split; [reflexivity|].
  split; [now destruct s as [w [d m t0 io t1 i mon iv th]]|].
  split; [reflexivity|]. now intros [].
Qed.

(** C2, as stated, fails: on a monitor constructed at clock reading 100,
    [record_event("A")] at clock reading 103 stores elapsed 3 and returns
    103, which is not the elapsed value. *)
Lemma record_event_result_is_not_elapsed :
  fst (record_event "A" example_state) = inr 103 /\
  events (metrics (self (snd (record_event "A" example_state)))) = [mkEvent 3 "A"] /\
  ~ (exists elapsed : Q,
        fst (record_event "A" example_state) = inr elapsed /\
        elapsed == time_at example_oracle 3 - start_time (self example_state)).
Proof.
  split; [reflexivity|]. split; [reflexivity|].
  intros [elapsed [H1 H2]]. vm_compute in H1. inversion H1; subst elapsed.
  vm_compute in H2. discriminate.
Qed.

(** ** Timed-operation wrapper *)

Lemma durations_after_ensure (q : string) (m : Metrics) :
  dict_get q (query_times_ms (ensure_query_key q m)) = Some (durations_of q m).
Proof.
  unfold ensure_query_key, durations_of, dict_contains.
  destruct (dict_get q (query_times_ms m)) eqn:E; simpl.
  - exact E.
  - apply dict_get_set_same.
Qed.

Lemma durations_other_after_ensure (q q0 : string) (m : Metrics) :
  q0 <> q -> dict_get q0 (query_times_ms (ensure_query_key q m)) = dict_get q0 (query_times_ms m).
Proof.
  intros Hne. unfold ensure_query_key.
  destruct (negb (dict_contains q (query_times_ms m))); simpl; [|reflexivity].
  now apply dict_get_set_other.
Qed.

(** The store after the two statements of [record_query] that touch
    [query_times_ms]. *)
Lemma append_after_ensure (q : string) (d : Q) (m : Metrics) :
  append_query_time q d (ensure_query_key q m) =
  inr (set_query_times
         (dict_set q (durations_of q m ++ [d]) (query_times_ms (ensure_query_key q m)))
         (ensure_query_key q m)).
Proof. unfold append_query_time. now rewrite durations_after_ensure. Qed.

(** [record_query] when the operation raises: the state after the start
    event and the second clock reading, and the operation's exception. *)
Lemma record_query_raises {R : Type} (query_name : string) (conn : Connection R)
    (query_sql : string) (s : St) (e : Exn) :
  conn query_sql = inl e ->
  record_query query_name conn query_sql s =
  (inl e,
   mkSt (tick (tick (world s)))
     (set_metrics
        (append_event
           (mkEvent (time_at (oracle (world s)) (step (world s)) - start_time (self s))
              (query_start_name query_name))
           (metrics (self s)))
        (self s))).
Proof.
  intros H. unfold record_query, bind. rewrite record_event_eq. cbn.
  unfold execute_fetchall. rewrite H. reflexivity.
Qed.

(** [record_query] when the operation returns [result]. *)
Lemma record_query_returns {R : Type} (query_name : string) (conn : Connection R)
    (query_sql : string) (s : St) (result : R) :
  conn query_sql = inr result ->
  let w := world s in
  let t0 := time_at (oracle w) (step w) in
  let t1 := time_at (oracle w) (S (step w)) in
  let t2 := time_at (oracle w) (S (S (step w))) in
  let t3 := time_at (oracle w) (S (S (S (step w)))) in
  let duration_ms := (t2 - t1) * 1000 in
  let m1 := append_event (mkEvent (t0 - start_time (self s)) (query_start_name query_name))
              (metrics (self s)) in
  let m2 := ensure_query_key query_name m1 in
  let m3 := set_query_times
              (dict_set query_name (durations_of query_name m1 ++ [duration_ms])
                 (query_times_ms m2)) m2 in
  let m4 := append_event
              (mkEvent (t3 - start_time (self s)) (query_end_name query_name duration_ms))
              m3 in
  record_query query_name conn query_sql s =
  (inr (result, duration_ms),
   mkSt (tick (tick (tick (tick w)))) (set_metrics m4 (self s))).
Proof.
  intros H. unfold record_query, bind. rewrite record_event_eq. cbn.
  unfold execute_fetchall. rewrite H. cbn.
  rewrite append_after_ensure. cbn. reflexivity.
Qed.

(** C3. When the operation raises [e], [record_query] raises the same [e];
    the "Query start: name" event has been appended, nothing else was added
    to the events (in particular no "Query end" event), and the duration
    table is unchanged. *)
Theorem record_query_failure_propagates {R : Type} (query_name : string)
    (conn : Connection R) (query_sql : string) (s : St) (e : Exn) :
  conn query_sql = inl e ->
  let now := time_at (oracle (world s)) (step (world s)) in
  let r := record_query query_name conn query_sql s in
  fst r = inl e /\
  events (metrics (self (snd r))) =
    events (metrics (self s)) ++
    [mkEvent (now - start_time (self s)) ("Query start: " ++ query_name)%string] /\
  startswith ("Query start: " ++ query_name)%string "Query end" = false /\
  query_times_ms (metrics (self (snd r))) = query_times_ms (metrics (self s)).
Proof.
  intros H. cbv zeta. rewrite (record_query_raises _ _ _ _ _ H).
  repeat split; reflexivity.
Qed.

Lemma record_query_failure_propagates_witness :
  failing_conn "SELECT 1" = inl (EngineError "Catalog Error: table does not exist") /\
  fst (record_query "Simple Count" failing_conn "SELECT 1" example_state) =
    inl (EngineError "Catalog Error: table does not exist") /\
  events (metrics (self (snd (record_query "Simple Count" failing_conn "SELECT 1"
                                 example_state)))) =
    [mkEvent 3 "Query start: Simple Count"].
Proof.
  split; [reflexivity|].
  destruct (record_query_failure_propagates "Simple Count" failing_conn "SELECT 1"
              example_state (EngineError "Catalog Error: table does not exist")
              eq_refl) as [H1 [H2 _]].
  split; [exact H1|]. rewrite H2. reflexivity.
Defined.

Lemma durations_of_append_event (q : string) (e : Event) (m : Metrics) :
  durations_of q (append_event e m) = durations_of q m.
Proof. reflexivity. Qed.

Lemma durations_of_set (q : string) (l : list Q) (m : Metrics) :
  durations_of q (set_query_times (dict_set q l (query_times_ms m)) m) = l.
Proof. unfold durations_of. cbn. now rewrite dict_get_set_same. Qed.

(** C4, amended. When the operation returns [result], [record_query]
    returns [(result, duration_ms)] with [duration_ms = (end - start) * 1000]
    for the two clock readings taken around the operation. The code does
    not clamp it: [duration_ms] is not negative exactly when the end
    reading is not earlier than the start reading. [duration_ms] is
    appended to the sequence of the name (an absent name starts from the
    empty sequence), so that sequence grows by exactly one and no other
    name changes; and the "Query end" event is recorded by a
    [record_event] that runs on a state that already holds the duration. *)
Theorem record_query_success_records_duration {R : Type} (query_name : string)
    (conn : Connection R) (query_sql : string) (s : St) (result : R) :
  conn query_sql = inr result ->
  let w := world s in
  let t1 := time_at (oracle w) (S (step w)) in
  let t2 := time_at (oracle w) (S (S (step w))) in
  let duration_ms := (t2 - t1) * 1000 in
  let r := record_query query_name conn query_sql s in
  let before := metrics (self s) in
  let after := metrics (self (snd r)) in
  fst r = inr (result, duration_ms) /\
  (0 <= duration_ms <-> t1 <= t2) /\
  durations_of query_name after = durations_of query_name before ++ [duration_ms] /\
  List.length (durations_of query_name after) =
    S (List.length (durations_of query_name before)) /\
  (forall q0, q0 <> query_name ->
     dict_get q0 (query_times_ms after) = dict_get q0 (query_times_ms before)) /\
  (exists mid : St,
     durations_of query_name (metrics (self mid)) =
       durations_of query_name before ++ [duration_ms] /\
     events (metrics (self mid)) =
       events before ++
       [mkEvent (time_at (oracle w) (step w) - start_time (self s))
          ("Query start: " ++ query_name)%string] /\
     snd r =
       snd (record_event
              ("Query end: " ++ query_name ++ " (" ++ format_f 2 duration_ms ++ "ms)")%string
              mid)) /\
  events after =
    events before ++
    [mkEvent (time_at (oracle w) (step w) - start_time (self s))
       ("Query start: " ++ query_name)%string;
     mkEvent (time_at (oracle w) (S (S (S (step w)))) - start_time (self s))
       ("Query end: " ++ query_name ++ " (" ++ format_f 2 duration_ms ++ "ms)")%string].
Proof.
  intros H. cbv zeta. rewrite (record_query_returns _ _ _ _ _ H).
  cbn [fst snd self world metrics set_metrics].
  rewrite !durations_of_append_event, durations_of_set.
  split; [reflexivity|].
  split; [split; intros Hle; lra|].
  split; [reflexivity|].
  split; [rewrite length_app; simpl; lia|].
  split.
  { intros q0 Hne. cbn [query_times_ms append_event set_query_times].
    rewrite dict_get_set_other by assumption.
    now rewrite durations_other_after_ensure. }
  split.
  { eexists (mkSt (tick (tick (tick (world s)))) (set_metrics _ (self s))).
    cbn [self metrics set_metrics].
    split; [apply durations_of_set|].
    split; [|rewrite record_event_eq; reflexivity].
    unfold ensure_query_key.
    destruct (negb _); reflexivity. }
  unfold ensure_query_key.
  destruct (negb _); cbn; rewrite <- app_assoc; reflexivity.
Qed.

Lemma example_clock_monotone : clock_monotone example_oracle.
Proof.
  intros i j Hij. cbn. apply Qplus_le_l. rewrite <- Zle_Qle. lia.
Qed.

Lemma record_query_success_records_duration_witness :
  fst (record_query "Simple Count" example_conn "SELECT COUNT(*) FROM test" example_state) =
    inr (["42"], (time_at example_oracle 5 - time_at example_oracle 4) * 1000) /\
  durations_of "Simple Count"
    (metrics (self (snd (record_query "Simple Count" example_conn
                           "SELECT COUNT(*) FROM test" example_state)))) =
    [(time_at example_oracle 5 - time_at example_oracle 4) * 1000].
Proof.
  destruct (record_query_success_records_duration "Simple Count" example_conn
              "SELECT COUNT(*) FROM test" example_state ["42"] eq_refl)
    as [H1 [_ [H3 _]]].
  split; [exact H1|exact H3].
Defined.

(** C4, as stated, fails. [time.time()] is the wall clock and may be set
    back. On a monitor whose clock reads 200 s before the operation and
    199 s after it, [record_query] returns the duration -1000 ms and stores
    it: the duration is negative. *)
Lemma record_query_negative_duration_on_backward_clock :
  example_conn "SELECT COUNT(*) FROM test" = inr ["42"] /\
  record_query "Simple Count" example_conn "SELECT COUNT(*) FROM test" backward_state =
    (inr (["42"], -1000),
     snd (record_query "Simple Count" example_conn "SELECT COUNT(*) FROM test"
            backward_state)) /\
  durations_of "Simple Count"
    (metrics (self (snd (record_query "Simple Count" example_conn
                           "SELECT COUNT(*) FROM test" backward_state)))) = [-1000] /\
  ~ (forall (conn : Connection (list string)) (query_name query_sql : string) (s : St)
            (result : list string),
       conn query_sql = inr result ->
       exists duration_ms : Q,
         fst (record_query query_name conn query_sql s) = inr (result, duration_ms) /\
         0 <= duration_ms).
Proof.
  split; [reflexivity|]. split; [reflexivity|]. split; [reflexivity|].
  intros claim.
  destruct (claim example_conn "Simple Count" "SELECT COUNT(*) FROM test" backward_state
              ["42"] eq_refl) as (d & Hd & Hpos).
  vm_compute in Hd. injection Hd as <-.
  apply Hpos. reflexivity.
Qed.

(** ** Sampler *)

Lemma two_pow_20_nonzero : ~ inject_Z (1024 ^ 2) == 0.
Proof. intros H. vm_compute in H. discriminate. Qed.

(** [capture_point] in one step: it never raises, it overwrites the disk
    baseline, and its six appends store [captured_sample]. *)
Lemma capture_point_eq (s : St) :
  let w := world s in
  capture_point s =
  (inr tt,
   mkSt (tick (tick (tick (tick (tick w)))))
     (set_metrics
        (fst (run_schedule (sample_actions (captured_sample s)) (metrics (self s))))
        (set_last_disk_time (time_at (oracle w) (step w))
           (set_last_disk_io (disk_io_at (oracle w) (4 + step w)) (self s))))).
Proof.
  cbv zeta. unfold capture_point, bind, captured_sample, disk_rate. cbn.
  destruct (Qgtb (time_at (oracle (world s)) (step (world s)) - last_disk_time (self s)) 0)
    eqn:Hdt.
  - apply Qgtb_true in Hdt.
    repeat (rewrite py_div_ok by first [apply two_pow_20_nonzero | lra]; cbn).
    reflexivity.
  - repeat (rewrite py_div_ok by first [apply two_pow_20_nonzero | lra]; cbn).
    reflexivity.
Qed.

Lemma two_pow_30_nonzero : ~ inject_Z (1024 ^ 3) == 0.
Proof. intros H. vm_compute in H. discriminate. Qed.

(** [__init__] never raises; it reads the clock for [start_time], then the
    disk counters and the clock again for the disk baseline. *)
Lemma new_monitor_eq (out_dir : string) (w : World) :
  new_monitor out_dir w =
  (inr tt,
   mkSt (tick (tick (tick (emit (EMakedirs out_dir) w))))
     (mkMonitor out_dir empty_metrics
        (time_at (oracle w) (step w))
        (disk_io_at (oracle w) (S (step w)))
        (time_at (oracle w) (S (S (step w))))
        (mkSystemInfo (os_name (host w)) (version_string (version_info (host w)))
           (os_cpu_count (host w))
           (inject_Z (virtual_memory_total (host w)) / inject_Z (1024 ^ 3))
           (engine_version (host w)))
        false 1 None)).
Proof.
  unfold new_monitor, init, bind. cbn.
  rewrite py_div_ok by apply two_pow_30_nonzero. reflexivity.
Qed.






(** ** Stopping the sampler *)

(** [stop_monitoring] on a monitor that has no thread attribute. *)
Lemma stop_monitoring_without_thread (s : St) :
  monitor_thread (self s) = None ->
  stop_monitoring s =
  (inr tt,
   mkSt (tick (world s))
     (set_metrics
        (append_event
           (mkEvent (time_at (oracle (world s)) (step (world s)) - start_time (self s))
              "Monitoring stopped")
           (metrics (self s)))
        (set_monitoring false (self s)))).
Proof.
  intros H. unfold stop_monitoring, bind. cbn. rewrite H. cbn. reflexivity.
Qed.

(** [stop_monitoring] on a monitor whose thread was started: the join asks
    the environment once and its answer changes nothing but the trace. *)
Lemma stop_monitoring_with_thread (s : St) (t : Thread) :
  monitor_thread (self s) = Some t ->
  started t = true ->
  stop_monitoring s =
  (inr tt,
   mkSt (tick (emit (EJoin 2 (join_exits_at (oracle (world s)) (step (world s))))
                 (tick (world s))))
     (set_metrics
        (append_event
           (mkEvent (time_at (oracle (world s)) (S (step (world s))) - start_time (self s))
              "Monitoring stopped")
           (metrics (self s)))
        (set_monitoring false (self s)))).
Proof.
  intros H Hs. unfold stop_monitoring, bind. cbn. rewrite H. cbn.
  unfold thread_join. rewrite Hs. cbn. reflexivity.
Qed.

(** C8. [stop_monitoring] clears the [monitoring] flag, joins the sampler
    thread with a timeout of 2 seconds, and, whatever the join reports
    (thread exited in time or not), returns normally after appending the
    "Monitoring stopped" event. *)
Theorem stop_monitoring_best_effort (s : St) (t : Thread) (exited : bool) :
  monitor_thread (self s) = Some t ->
  started t = true ->
  join_exits_at (oracle (world s)) (step (world s)) = exited ->
  let r := stop_monitoring s in
  fst r = inr tt /\
  monitoring (self (snd r)) = false /\
  trace (world (snd r)) = trace (world s) ++ [EJoin 2 exited] /\
  events (metrics (self (snd r))) =
    events (metrics (self s)) ++
    [mkEvent (time_at (oracle (world s)) (S (step (world s))) - start_time (self s))
       "Monitoring stopped"].
Proof.
  intros H Hs He. cbv zeta. rewrite (stop_monitoring_with_thread s t H Hs).
  subst exited. repeat split; reflexivity.
Qed.

Lemma stop_monitoring_best_effort_witness :
  join_exits_at (oracle (world example_started)) (step (world example_started)) = false /\
  fst (stop_monitoring example_started) = inr tt /\
  trace (world (snd (stop_monitoring example_started))) =
    [EMakedirs "./performance_data"; EThreadStart; EJoin 2 false] /\
  events (metrics (self (snd (stop_monitoring example_started)))) =
    [mkEvent 3 "Monitoring started"; mkEvent 5 "Monitoring stopped"].
Proof.
  split; [reflexivity|].
  destruct (stop_monitoring_best_effort example_started (mkThread true true) false
              eq_refl eq_refl eq_refl) as [H1 [_ [H3 H4]]].
  split; [exact H1|]. split; [rewrite H3; reflexivity|rewrite H4; reflexivity].
Defined.

(** C10. On a monitor whose sampler was never started there is no thread
    attribute: [stop_monitoring] skips the join (no effect reaches the
    environment), does not raise, and still appends "Monitoring stopped". *)
Theorem stop_monitoring_never_started (s : St) :
  monitor_thread (self s) = None ->
  let r := stop_monitoring s in
  fst r = inr tt /\
  trace (world (snd r)) = trace (world s) /\
  monitoring (self (snd r)) = false /\
  events (metrics (self (snd r))) =
    events (metrics (self s)) ++
    [mkEvent (time_at (oracle (world s)) (step (world s)) - start_time (self s))
       "Monitoring stopped"].
Proof.
  intros H. cbv zeta. rewrite (stop_monitoring_without_thread s H).
  repeat split; reflexivity.
Qed.

Lemma stop_monitoring_never_started_witness :
  monitor_thread (self example_state) = None /\
  fst (stop_monitoring example_state) = inr tt /\
  trace (world (snd (stop_monitoring example_state))) = [EMakedirs "./performance_data"] /\
  events (metrics (self (snd (stop_monitoring example_state)))) =
    [mkEvent 3 "Monitoring stopped"].
Proof.
  split; [reflexivity|].
  destruct (stop_monitoring_never_started example_state eq_refl) as [H1 [H2 [_ H4]]].
  split; [exact H1|]. split; [rewrite H2; reflexivity|rewrite H4; reflexivity].
Defined.

(** ** Ordering of the two series *)

Lemma nondecreasing_snoc (l : list Q) (x : Q) :
  nondecreasing l -> Forall (fun t => t <= x) l -> nondecreasing (l ++ [x]).
Proof.
  unfold nondecreasing. induction l as [|a l IH]; simpl; intros Hs Hb.
  - repeat constructor.
  - inversion Hs as [|? ? Hl Ha]; subst. inversion Hb as [|? ? Hax Hlx]; subst.
    constructor.
    + now apply IH.
    + apply Forall_app. split; [assumption|]. now repeat constructor.
Qed.

Lemma bounded_weaken (l : list Q) (x y : Q) :
  x <= y -> Forall (fun t => t <= x) l -> Forall (fun t => t <= y) l.
Proof.
  intros Hxy H. eapply Forall_impl; [|exact H].
  intros t Ht. cbv beta in Ht. lra.
Qed.

Section Ordering.

Variable o : Oracle.
Hypothesis clock : clock_monotone o.
Variable start : Q.

Lemma ordered_later (k k' : nat) (m : Metrics) :
  (k <= k')%nat -> ordered_upto o k start m -> ordered_upto o k' start m.
Proof using clock.
  intros Hk (Ht & He & Bt & Be).
  assert (Hle : time_at o k - start <= time_at o k' - start)
    by (pose proof (clock k k' Hk); lra).
  repeat split; try assumption; eapply bounded_weaken; eassumption.
Qed.

(** An event stamped with reading [k] keeps the log ordered. *)
Lemma ordered_append_event (k : nat) (m : Metrics) (n : string) :
  ordered_upto o k start m ->
  ordered_upto o k start (append_event (mkEvent (time_at o k - start) n) m).
Proof using Type.
  intros (Ht & He & Bt & Be). unfold ordered_upto, event_times. cbn.
  rewrite map_app. cbn. repeat split; try assumption.
  - now apply nondecreasing_snoc.
  - apply Forall_app. split; [assumption|]. repeat constructor. apply Qle_refl.
Qed.

(** A sample stamped with reading [k] keeps the timestamps ordered. *)
Lemma ordered_append_timestamp (k : nat) (m : Metrics) :
  ordered_upto o k start m ->
  ordered_upto o k start (append_column Timestamp (time_at o k - start) m).
Proof using Type.
  intros (Ht & He & Bt & Be). unfold ordered_upto, event_times. cbn.
  repeat split; try assumption.
  - now apply nondecreasing_snoc.
  - apply Forall_app. split; [assumption|]. repeat constructor. apply Qle_refl.
Qed.

(** Writes that touch neither the timestamps nor the events. *)
Lemma ordered_same_series (k : nat) (m m' : Metrics) :
  timestamp m' = timestamp m -> events m' = events m ->
  ordered_upto o k start m -> ordered_upto o k start m'.
Proof using Type.
  unfold ordered_upto, event_times. intros -> ->. tauto.
Qed.

End Ordering.

Lemma ensure_query_key_series (q : string) (m : Metrics) :
  timestamp (ensure_query_key q m) = timestamp m /\
  events (ensure_query_key q m) = events m.
Proof. unfold ensure_query_key. destruct (negb _); split; reflexivity. Qed.

(** [start_monitoring] in one step. *)
Lemma start_monitoring_eq (interval : Q) (s : St) :
  start_monitoring interval s =
  (inr tt,
   mkSt (tick (emit EThreadStart (world s)))
     (set_metrics
        (append_event
           (mkEvent (time_at (oracle (world s)) (step (world s)) - start_time (self s))
              "Monitoring started")
           (metrics (self s)))
        (set_monitor_thread (Some (mkThread true true))
           (set_monitoring true (set_monitor_interval interval (self s)))))).
Proof. reflexivity. Qed.

(** [stop_monitoring] when the thread object exists but never ran: the
    join raises and no event is recorded. *)
Lemma stop_monitoring_unstarted_thread (s : St) (t : Thread) :
  monitor_thread (self s) = Some t ->
  started t = false ->
  stop_monitoring s =
  (inl (RuntimeError "cannot join thread before it is started"),
   mkSt (world s) (set_monitoring false (self s))).
Proof.
  intros H Hs. unfold stop_monitoring, bind. cbn. rewrite H. cbn.
  unfold thread_join. rewrite Hs. reflexivity.
Qed.

Lemma series_ordered_record_event (n : string) (s : St) :
  clock_monotone (oracle (world s)) ->
  series_ordered s -> series_ordered (snd (record_event n s)).
Proof.
  intros clock H. rewrite record_event_eq. unfold series_ordered in *.
  cbn [snd world self tick oracle step].
  apply (ordered_later _ clock _ (step (world s))); [lia|].
  destruct s as [w [d m t0 io t1 i mon iv th]]. cbn in *.
  now apply ordered_append_event.
Qed.

Lemma series_ordered_capture_point (s : St) :
  clock_monotone (oracle (world s)) ->
  series_ordered s -> series_ordered (snd (capture_point s)).
Proof.
  intros clock H. rewrite capture_point_eq. unfold series_ordered in *.
  cbn [snd world self tick oracle step].
  apply (ordered_later _ clock _ (step (world s))); [lia|].
  destruct s as [w [d m t0 io t1 i mon iv th]]. cbn in *.
  eapply ordered_same_series;
    [| |apply (ordered_append_timestamp (oracle w) t0 (step w) m H)];
    reflexivity.
Qed.

Lemma series_ordered_record_query {R : Type} (n : string) (conn : Connection R)
    (sql : string) (s : St) :
  clock_monotone (oracle (world s)) ->
  series_ordered s -> series_ordered (snd (record_query n conn sql s)).
Proof.
  intros clock H. destruct (conn sql) as [e|result] eqn:E.
  - rewrite (record_query_raises _ _ _ _ _ E). unfold series_ordered in *.
    cbn [snd world self tick oracle step].
    apply (ordered_later _ clock _ (step (world s))); [lia|].
    destruct s as [w [d m t0 io t1 i mon iv th]]. cbn in *.
    now apply ordered_append_event.
  - rewrite (record_query_returns _ _ _ _ _ E). unfold series_ordered in *.
    cbn [snd world self tick oracle step].
    apply (ordered_later _ clock _ (3 + step (world s))); [lia|].
    destruct s as [w [d m t0 io t1 i mon iv th]].
    cbn [world self metrics start_time set_metrics] in *.
    apply ordered_append_event.
    eapply ordered_same_series;
      [| |apply (ordered_later _ clock _ (step w) (3 + step w)); [lia|];
           apply (ordered_append_event (oracle w) t0 (step w) m
                    (query_start_name n) H)].
    + cbn [timestamp set_query_times]. apply (proj1 (ensure_query_key_series _ _)).
    + cbn [events set_query_times]. apply (proj2 (ensure_query_key_series _ _)).
Qed.

Lemma series_ordered_start_monitoring (interval : Q) (s : St) :
  clock_monotone (oracle (world s)) ->
  series_ordered s -> series_ordered (snd (start_monitoring interval s)).
Proof.
  intros clock H. rewrite start_monitoring_eq. unfold series_ordered in *.
  cbn [snd world self tick emit oracle step].
  apply (ordered_later _ clock _ (step (world s))); [lia|].
  destruct s as [w [d m t0 io t1 i mon iv th]]. cbn in *.
  now apply ordered_append_event.
Qed.

Lemma series_ordered_stop_monitoring (s : St) :
  clock_monotone (oracle (world s)) ->
  series_ordered s -> series_ordered (snd (stop_monitoring s)).
Proof.
  intros clock H. destruct (monitor_thread (self s)) as [t|] eqn:Ht.
  - destruct (started t) eqn:Hs.
    + rewrite (stop_monitoring_with_thread s t Ht Hs). unfold series_ordered in *.
      cbn [snd world self tick emit oracle step].
      apply (ordered_later _ clock _ (S (step (world s)))); [lia|].
      destruct s as [w [d m t0 io t1 i mon iv th]]. cbn in *.
      apply ordered_append_event.
      apply (ordered_later _ clock _ (step w)); [lia|exact H].
    + rewrite (stop_monitoring_unstarted_thread s t Ht Hs).
      destruct s as [w [d m t0 io t1 i mon iv th]]. exact H.
  - rewrite (stop_monitoring_without_thread s Ht). unfold series_ordered in *.
    cbn [snd world self tick oracle step].
    apply (ordered_later _ clock _ (step (world s))); [lia|].
    destruct s as [w [d m t0 io t1 i mon iv th]]. cbn in *.
    now apply ordered_append_event.
Qed.

(** No method replaces the environment's answer functions. *)
Lemma run_call_oracle (c : Call) (s : St) :
  oracle (world (run_call c s)) = oracle (world s).
Proof.
  destruct c as [|n|n conn sql|i|]; cbn [run_call].
  - now rewrite capture_point_eq.
  - now rewrite record_event_eq.
  - destruct (conn sql) as [e|result] eqn:E.
    + now rewrite (record_query_raises _ _ _ _ _ E).
    + now rewrite (record_query_returns _ _ _ _ _ E).
  - now rewrite start_monitoring_eq.
  - destruct (monitor_thread (self s)) as [t|] eqn:Ht.
    + destruct (started t) eqn:Hs.
      * now rewrite (stop_monitoring_with_thread s t Ht Hs).
      * now rewrite (stop_monitoring_unstarted_thread s t Ht Hs).
    + now rewrite (stop_monitoring_without_thread s Ht).
Qed.

Lemma series_ordered_run_call (c : Call) (s : St) :
  clock_monotone (oracle (world s)) ->
  series_ordered s -> series_ordered (run_call c s).
Proof.
  intros clock H. destruct c; cbn [run_call].
  - now apply series_ordered_capture_point.
  - now apply series_ordered_record_event.
  - now apply series_ordered_record_query.
  - now apply series_ordered_start_monitoring.
  - now apply series_ordered_stop_monitoring.
Qed.

Lemma series_ordered_run_calls (cs : list Call) (s : St) :
  clock_monotone (oracle (world s)) ->
  series_ordered s -> series_ordered (run_calls cs s).
Proof.
  revert s. induction cs as [|c cs IH]; intros s clock H; [exact H|].
  cbn. apply IH.
  - now rewrite run_call_oracle.
  - now apply series_ordered_run_call.
Qed.

Lemma series_ordered_new_monitor (out_dir : string) (w : World) :
  series_ordered (snd (new_monitor out_dir w)).
Proof.
  rewrite new_monitor_eq. unfold series_ordered, ordered_upto, nondecreasing. cbn.
  repeat split; constructor.
Qed.

(** C9. With a clock that never goes backward: a new monitor satisfies the
    ordering invariant; every call of [capture_point], [record_event],
    [record_query], [start_monitoring] and [stop_monitoring] preserves it,
    whether the call returns or raises; and the invariant gives that the
    elapsed values of the samples are non-decreasing and that the elapsed
    values of the events are non-decreasing (each series on its own). Hence
    both hold after any sequence of calls on a new monitor. *)
Theorem elapsed_nondecreasing :
  (forall (out_dir : string) (w : World), series_ordered (snd (new_monitor out_dir w))) /\
  (forall (c : Call) (s : St),
     clock_monotone (oracle (world s)) ->
     series_ordered s -> series_ordered (run_call c s)) /\
  (forall s : St,
     series_ordered s ->
     nondecreasing (timestamp (metrics (self s))) /\
     nondecreasing (event_times (metrics (self s)))) /\
  (forall (out_dir : string) (w : World) (cs : list Call),
     clock_monotone (oracle w) ->
     let s := run_calls cs (snd (new_monitor out_dir w)) in
     nondecreasing (timestamp (metrics (self s))) /\
     nondecreasing (event_times (metrics (self s)))).
Proof.
  split; [exact series_ordered_new_monitor|].
  split; [exact series_ordered_run_call|].
  split; [intros s (Ht & He & _); now split|].
  intros out_dir w cs clock s.
  assert (H : series_ordered s).
  { apply series_ordered_run_calls.
    - now rewrite new_monitor_eq.
    - apply series_ordered_new_monitor. }
  destruct H as (Ht & He & _). now split.
Qed.

Lemma elapsed_nondecreasing_witness :
  let s :=
    run_calls
      [CallCapturePoint;
       CallStartMonitoring 1;
       CallRecordEvent "Creating tables";
       CallRecordQuery "Simple Count" example_conn "SELECT COUNT(*) FROM test";
       CallRecordQuery "Broken" failing_conn "SELECT * FROM missing";
       CallCapturePoint;
       CallStopMonitoring]
      (snd (new_monitor "./performance_data" example_world)) in
  clock_monotone (oracle example_world) /\
  timestamp (metrics (self s)) = [3; 16] /\
  event_times (metrics (self s)) = [8; 9; 10; 13; 14; 22] /\
  nondecreasing (timestamp (metrics (self s))) /\
  nondecreasing (event_times (metrics (self s))).
Proof.
  cbv zeta.
  split; [exact example_clock_monotone|].
  split; [reflexivity|]. split; [reflexivity|].
  destruct elapsed_nondecreasing as [_ [_ [_ H]]].
  exact (H "./performance_data" example_world _ example_clock_monotone).
Defined.

(** ** Two threads, one store *)

Lemma store_after_cons (a : Action) (l : list Action) (m : Metrics) :
  store_after (a :: l) m = store_after l (apply_action a m).
Proof.
  unfold store_after. destruct a; cbn [run_schedule apply_action]; try reflexivity.
  destruct (run_schedule l m). reflexivity.
Qed.

Lemma snapshots_cons (a : Action) (l : list Action) (m : Metrics) :
  snapshots (a :: l) m =
  match a with
  | ASnapshot => m :: snapshots l m
  | _ => snapshots l (apply_action a m)
  end.
Proof.
  unfold snapshots. destruct a; cbn [run_schedule apply_action]; try reflexivity.
  destruct (run_schedule l m). reflexivity.
Qed.

Lemma store_after_app (l1 l2 : list Action) (m : Metrics) :
  store_after (l1 ++ l2) m = store_after l2 (store_after l1 m).
Proof.
  revert m. induction l1 as [|a l1 IH]; intros m; [reflexivity|].
  rewrite <- app_comm_cons, !store_after_cons. apply IH.
Qed.

(** A snapshot placed after [l1] sees exactly the store [l1] leaves. *)
Lemma snapshots_app (l1 l2 : list Action) (m : Metrics) :
  snapshots (l1 ++ ASnapshot :: l2) m =
  snapshots l1 m ++ store_after l1 m :: snapshots l2 (store_after l1 m).
Proof.
  revert m. induction l1 as [|a l1 IH]; intros m.
  - cbn [app]. rewrite snapshots_cons. reflexivity.
  - rewrite <- app_comm_cons, snapshots_cons, store_after_cons.
    destruct a; rewrite ?IH; try reflexivity.
    rewrite (snapshots_cons ASnapshot). reflexivity.
Qed.

(** Conversely every snapshot was taken after some prefix of the schedule. *)
Lemma snapshots_inv (l : list Action) (m seen : Metrics) :
  In seen (snapshots l m) ->
  exists l1 l2, l = l1 ++ ASnapshot :: l2 /\ seen = store_after l1 m.
Proof.
  revert m. induction l as [|a l IH]; intros m Hin; [contradiction|].
  rewrite snapshots_cons in Hin.
  assert (Hrec : In seen (snapshots l (apply_action a m)) ->
                 exists l1 l2, a :: l = l1 ++ ASnapshot :: l2 /\ seen = store_after l1 m).
  { intros H. destruct (IH _ H) as (l1 & l2 & -> & ->).
    exists (a :: l1), l2. split; [reflexivity|]. now rewrite store_after_cons. }
  destruct a; try (now apply Hrec).
  destruct Hin as [<-|Hin]; [|now apply Hrec].
  exists [], l. split; reflexivity.
Qed.

Lemma apply_action_events (a : Action) (m : Metrics) :
  events (apply_action a m) = events m ++ event_appends [a].
Proof.
  destruct a as [c v|e|q|q d|]; cbn.
  - destruct c; cbn; now rewrite app_nil_r.
  - reflexivity.
  - rewrite (proj2 (ensure_query_key_series q m)). now rewrite app_nil_r.
  - unfold append_query_time. destruct (dict_get q (query_times_ms m)); cbn;
      now rewrite app_nil_r.
  - now rewrite app_nil_r.
Qed.

Lemma event_appends_cons (a : Action) (l : list Action) :
  event_appends (a :: l) = event_appends [a] ++ event_appends l.
Proof. unfold event_appends. cbn. now rewrite app_nil_r. Qed.

Lemma column_appends_cons (c : Column) (a : Action) (l : list Action) :
  column_appends c (a :: l) = column_appends c [a] ++ column_appends c l.
Proof. unfold column_appends. cbn. now rewrite app_nil_r. Qed.

(** The event log after a schedule: the old log, then the schedule's
    events in schedule order. *)
Lemma store_after_events (l : list Action) (m : Metrics) :
  events (store_after l m) = events m ++ event_appends l.
Proof.
  revert m. induction l as [|a l IH]; intros m.
  - cbn. now rewrite app_nil_r.
  - rewrite store_after_cons, IH, apply_action_events, (event_appends_cons a l).
    now rewrite <- app_assoc.
Qed.

Lemma apply_action_column (c : Column) (a : Action) (m : Metrics) :
  column c (apply_action a m) = column c m ++ column_appends c [a].
Proof.
  destruct a as [c' v|e|q|q d|]; cbn.
  - destruct c, c'; cbn; rewrite ?app_nil_r; reflexivity.
  - destruct c; cbn; now rewrite app_nil_r.
  - unfold ensure_query_key. destruct (negb _); destruct c; cbn; now rewrite app_nil_r.
  - unfold append_query_time. destruct (dict_get q (query_times_ms m));
      destruct c; cbn; now rewrite app_nil_r.
  - now rewrite app_nil_r.
Qed.

(** Each column after a schedule: the old column, then the schedule's
    appends to it in schedule order. *)
Lemma store_after_column (c : Column) (l : list Action) (m : Metrics) :
  column c (store_after l m) = column c m ++ column_appends c l.
Proof.
  revert m. induction l as [|a l IH]; intros m.
  - cbn. now rewrite app_nil_r.
  - rewrite store_after_cons, IH, apply_action_column, (column_appends_cons c a l).
    now rewrite <- app_assoc.
Qed.

Section Interleavings.

Context {A : Type}.

Lemma interleaving_block_left (p l1 l2 l : list A) :
  Interleaving l1 l2 l -> Interleaving (p ++ l1) l2 (p ++ l).
Proof.
  intros H. induction p as [|a p IH]; [exact H|]. cbn. now constructor.
Qed.

Lemma interleaving_block_right (p l1 l2 l : list A) :
  Interleaving l1 l2 l -> Interleaving l1 (p ++ l2) (p ++ l).
Proof.
  intros H. induction p as [|a p IH]; [exact H|]. cbn. now constructor.
Qed.

(** No step is lost or repeated. *)
Lemma interleaving_permutation (l1 l2 l : list A) :
  Interleaving l1 l2 l -> Permutation l (l1 ++ l2).
Proof.
  induction 1 as [|a l1 l2 l _ IH|a l1 l2 l _ IH]; cbn.
  - constructor.
  - now constructor.
  - rewrite IH. apply Permutation_middle.
Qed.

Lemma interleaving_nil_left (l2 l : list A) : Interleaving [] l2 l -> l = l2.
Proof.
  revert l. induction l2 as [|a l2 IH]; intros l H; inversion H; subst.
  - reflexivity.
  - f_equal. now apply IH.
Qed.

End Interleavings.

(** What a step contributes is a function of the step alone, so the
    contributions interleave as the steps do. *)
Lemma interleaving_flat_map {A B : Type} (f : A -> list B) (l1 l2 l : list A) :
  Interleaving l1 l2 l ->
  Interleaving (flat_map f l1) (flat_map f l2) (flat_map f l).
Proof.
  induction 1 as [|a l1 l2 l _ IH|a l1 l2 l _ IH]; cbn.
  - constructor.
  - now apply interleaving_block_left.
  - now apply interleaving_block_right.
Qed.

Lemma foreground_appends_no_column (c : Column) (fg : list Action) :
  forallb is_foreground fg = true -> column_appends c fg = [].
Proof.
  induction fg as [|a fg IH]; [reflexivity|].
  cbn [forallb]. rewrite andb_true_iff. intros [Ha Hfg].
  rewrite column_appends_cons, (IH Hfg).
  destruct a; try discriminate; reflexivity.
Qed.

Lemma sampler_column_count (c : Column) (done : list Sample) :
  List.length (column_appends c (sampler_actions done)) = List.length done.
Proof.
  induction done as [|x done IH]; [reflexivity|].
  unfold sampler_actions in *. cbn [flat_map].
  unfold column_appends in *. rewrite flat_map_app, length_app, IH.
  destruct c; reflexivity.
Qed.

(** Between two captures no sample is half written. *)
Lemma aligned_between_captures (fg l : list Action) (done : list Sample) (m : Metrics) :
  forallb is_foreground fg = true ->
  Interleaving fg (sampler_actions done) l ->
  columns_aligned m ->
  columns_aligned (store_after l m).
Proof.
  intros Hfg Hl Hm c.
  assert (Hcol : forall c0, List.length (column c0 (store_after l m)) =
                            (List.length (column c0 m) + List.length done)%nat).
  { intros c0. rewrite store_after_column, length_app. f_equal.
    pose proof (interleaving_flat_map
                  (fun a => match a with
                            | AAppend c' v =>
                                if String.eqb (column_key c0) (column_key c') then [v] else []
                            | _ => []
                            end) _ _ _ Hl) as H.
    fold (column_appends c0 fg) in H. fold (column_appends c0 l) in H.
    fold (column_appends c0 (sampler_actions done)) in H.
    rewrite (foreground_appends_no_column c0 fg Hfg) in H.
    apply interleaving_nil_left in H. rewrite H. apply sampler_column_count. }
  change (timestamp (store_after l m)) with (column Timestamp (store_after l m)).
  rewrite !Hcol. rewrite (Hm c). reflexivity.
Qed.

Lemma apply_action_query_times (a : Action) (m1 m2 : Metrics) :
  query_times_ms m1 = query_times_ms m2 ->
  query_times_ms (apply_action a m1) = query_times_ms (apply_action a m2).
Proof.
  intros H. destruct a as [c v|e|q|q d|]; cbn.
  - destruct c; exact H.
  - exact H.
  - unfold ensure_query_key. rewrite H. destruct (negb _); cbn; [reflexivity|exact H].
  - unfold append_query_time. rewrite H.
    destruct (dict_get q (query_times_ms m2)); cbn; [reflexivity|exact H].
  - exact H.
Qed.

Lemma store_after_query_times (l : list Action) (m1 m2 : Metrics) :
  query_times_ms m1 = query_times_ms m2 ->
  query_times_ms (store_after l m1) = query_times_ms (store_after l m2).
Proof.
  revert m1 m2. induction l as [|a l IH]; intros m1 m2 H; [exact H|].
  rewrite !store_after_cons. apply IH. now apply apply_action_query_times.
Qed.

(** The sampler never disturbs the duration table: it ends as the
    foreground alone would leave it. *)
Lemma durations_untouched_by_sampler (fg bg l : list Action) (m : Metrics) :
  forallb is_sampler bg = true ->
  Interleaving fg bg l ->
  query_times_ms (store_after l m) = query_times_ms (store_after fg m).
Proof.
  intros Hbg Hl. revert m. induction Hl as [|a l1 l2 l _ IH|a l1 l2 l _ IH]; intros m.
  - reflexivity.
  - rewrite !store_after_cons. now apply IH.
  - cbn [forallb] in Hbg. apply andb_true_iff in Hbg as [Ha Hbg].
    rewrite store_after_cons, (IH Hbg).
    apply store_after_query_times. destruct a as [c v| | | |]; try discriminate.
    destruct c; reflexivity.
Qed.

Lemma sampler_actions_are_sampler (samples : list Sample) :
  forallb is_sampler (sampler_actions samples) = true.
Proof. induction samples as [|x r IH]; [reflexivity|exact IH]. Qed.

(** The methods run without interruption are these action sequences. *)
Lemma record_event_as_actions (n : string) (s : St) :
  metrics (self (snd (record_event n s))) =
  store_after
    (event_actions
       (mkEvent (time_at (oracle (world s)) (step (world s)) - start_time (self s)) n))
    (metrics (self s)).
Proof. now rewrite record_event_eq. Qed.

Lemma capture_point_as_actions (s : St) :
  metrics (self (snd (capture_point s))) =
  store_after (sample_actions (captured_sample s)) (metrics (self s)).
Proof. now rewrite capture_point_eq. Qed.

Lemma record_query_as_actions {R : Type} (q : string) (conn : Connection R)
    (sql : string) (s : St) (result : R) :
  conn sql = inr result ->
  let w := world s in
  let d := (time_at (oracle w) (2 + step w) - time_at (oracle w) (1 + step w)) * 1000 in
  metrics (self (snd (record_query q conn sql s))) =
  store_after
    (query_actions
       (mkEvent (time_at (oracle w) (step w) - start_time (self s)) (query_start_name q))
       q d
       (mkEvent (time_at (oracle w) (3 + step w) - start_time (self s))
          (query_end_name q d)))
    (metrics (self s)).
Proof.
  intros H. cbv zeta. rewrite (record_query_returns _ _ _ _ _ H).
  cbn [snd self metrics set_metrics].
  unfold query_actions. rewrite !store_after_cons.
  cbn [apply_action]. rewrite append_after_ensure. reflexivity.
Qed.

(** C1, amended. The code takes no lock; what is indivisible is each single
    append. For every interleaving [l] of the steps of two threads [fg] and
    [bg] on a store [m]:
    - the event log ends as the old log followed by every appended event,
      none lost, none repeated, each thread's events in that thread's order;
    - the same holds for each of the six sample columns;
    - when [bg] is the sampler, the duration table ends as the foreground
      alone would leave it;
    - a snapshot sees a prefix of the final event log made of whole events;
    - a snapshot taken after a prefix of the schedule in which the sampler
      has finished every capture it began sees six columns of equal length.
    Nothing is promised for a snapshot taken in the middle of a capture. *)
Theorem appends_survive_every_interleaving (fg bg l : list Action) (m : Metrics) :
  Interleaving fg bg l ->
  (events (store_after l m) = events m ++ event_appends l /\
   Interleaving (event_appends fg) (event_appends bg) (event_appends l) /\
   Permutation (event_appends l) (event_appends fg ++ event_appends bg)) /\
  (forall c : Column,
     column c (store_after l m) = column c m ++ column_appends c l /\
     Interleaving (column_appends c fg) (column_appends c bg) (column_appends c l) /\
     Permutation (column_appends c l) (column_appends c fg ++ column_appends c bg)) /\
  (forallb is_sampler bg = true ->
   query_times_ms (store_after l m) = query_times_ms (store_after fg m)) /\
  (forall seen : Metrics,
     In seen (snapshots l m) ->
     exists l1 l2 : list Action,
       l = l1 ++ ASnapshot :: l2 /\
       events seen = events m ++ event_appends l1 /\
       events (store_after l m) = events seen ++ event_appends l2) /\
  (forall (l1 l2 fg1 : list Action) (done : list Sample),
     l = l1 ++ ASnapshot :: l2 ->
     forallb is_foreground fg1 = true ->
     Interleaving fg1 (sampler_actions done) l1 ->
     columns_aligned m ->
     In (store_after l1 m) (snapshots l m) /\ columns_aligned (store_after l1 m)).
Proof.
  intros Hl.
  split.
  { split; [apply store_after_events|].
    assert (H : Interleaving (event_appends fg) (event_appends bg) (event_appends l))
      by (now apply interleaving_flat_map).
    split; [exact H|now apply interleaving_permutation]. }
  split.
  { intros c. split; [apply store_after_column|].
    assert (H : Interleaving (column_appends c fg) (column_appends c bg)
                  (column_appends c l))
      by (now apply interleaving_flat_map).
    split; [exact H|now apply interleaving_permutation]. }
  split.
  { intros Hbg. exact (durations_untouched_by_sampler fg bg l m Hbg Hl). }
  split.
  { intros seen Hin. destruct (snapshots_inv _ _ _ Hin) as (l1 & l2 & -> & ->).
    exists l1, l2. split; [reflexivity|].
    split; [apply store_after_events|].
    rewrite !store_after_events. unfold event_appends.
    rewrite flat_map_app. cbn [flat_map app]. now rewrite app_assoc. }
  intros l1 l2 fg1 done -> Hfg1 Hl1 Hm. split.
  - rewrite snapshots_app. apply in_or_app. right. now left.
  - now apply (aligned_between_captures fg1 l1 done m).
Qed.

Lemma empty_metrics_aligned : columns_aligned empty_metrics.
Proof. intros c. destruct c; reflexivity. Qed.

Lemma appends_survive_every_interleaving_witness :
  let e := mkEvent 1 "Creating tables" in
  let fg := [AEvent e; ASnapshot] in
  let bg := sampler_actions [example_sample] in
  let l := AEvent e :: bg ++ [ASnapshot] in
  Interleaving fg bg l /\
  events (store_after l empty_metrics) = [e] /\
  timestamp (store_after l empty_metrics) = [3] /\
  columns_aligned (store_after (AEvent e :: bg) empty_metrics).
Proof.
  cbv zeta.
  assert (Hl : Interleaving
                 [AEvent (mkEvent 1 "Creating tables"); ASnapshot]
                 (sampler_actions [example_sample])
                 (AEvent (mkEvent 1 "Creating tables")
                    :: sampler_actions [example_sample] ++ [ASnapshot])).
  { apply interleave_left. do 6 apply interleave_right.
    apply interleave_left. apply interleave_done. }
  split; [exact Hl|].
  destruct (appends_survive_every_interleaving _ _ _ empty_metrics Hl)
    as [[He _] [Hc [_ [_ Ha]]]].
  split; [exact He|]. split; [exact (proj1 (Hc Timestamp))|].
  refine (proj2 (Ha (AEvent (mkEvent 1 "Creating tables")
                       :: sampler_actions [example_sample])
                    [] [AEvent (mkEvent 1 "Creating tables")] [example_sample]
                    eq_refl eq_refl _ empty_metrics_aligned)).
  apply interleave_left. do 6 apply interleave_right. apply interleave_done.
Defined.

(** C1, as stated, fails. The sampler writes one sample with six separate
    appends; a snapshot scheduled after the first of them sees a timestamp
    column of length 1 next to a CPU column of length 0. *)
Lemma snapshot_observes_half_written_sample :
  let l := AAppend Timestamp 3 :: ASnapshot ::
           [AAppend CpuPercent 50; AAppend MemoryPercent 3; AAppend MemoryUsedMb 2;
            AAppend DiskReadMb 6; AAppend DiskWriteMb 12] in
  Interleaving [ASnapshot] (sampler_actions [example_sample]) l /\
  snapshots l empty_metrics = [append_column Timestamp 3 empty_metrics] /\
  columns_alignedb (append_column Timestamp 3 empty_metrics) = false /\
  ~ (forall (fg : list Action) (samples : list Sample) (schedule : list Action),
       forallb is_foreground fg = true ->
       Interleaving fg (sampler_actions samples) schedule ->
       Forall columns_aligned (snapshots schedule empty_metrics)).
Proof.
  cbv zeta.
  assert (Hl : Interleaving [ASnapshot] (sampler_actions [example_sample])
                 (AAppend Timestamp 3 :: ASnapshot ::
                  [AAppend CpuPercent 50; AAppend MemoryPercent 3;
                   AAppend MemoryUsedMb 2; AAppend DiskReadMb 6;
                   AAppend DiskWriteMb 12])).
  { apply interleave_right. apply interleave_left.
    do 5 apply interleave_right. apply interleave_done. }
  split; [exact Hl|]. split; [reflexivity|]. split; [reflexivity|].
  intros claim.
  specialize (claim [ASnapshot] [example_sample] _ eq_refl Hl).
  inversion claim as [|seen rest Hseen _]; subst.
  specialize (Hseen CpuPercent). discriminate Hseen.
Qed.

(** What the half-written sample does to a reader: [generate_report]
    on the in-memory metrics stops at the first plot, whose x and y series
    differ in length. *)
Lemma half_written_sample_breaks_plot (dir : string) (s : St) :
  fst (plot_resource_usage
         (mkReportData (system_info (self s)) (append_column Timestamp 3 empty_metrics))
         dir s) =
  inl (ValueError "x and y must have same first dimension").
Proof. reflexivity. Qed.

(** ** Persistence *)

Lemma floats_roundtrip (l : list Q) : floats_of_json (json_floats l) = Some l.
Proof.
  unfold floats_of_json, json_floats. induction l as [|x l IH]; [reflexivity|].
  cbn in *. now rewrite IH.
Qed.

Lemma events_roundtrip (l : list Event) :
  all_some (map event_of_json (map json_of_event l)) = Some l.
Proof.
  induction l as [|[t n] l IH]; [reflexivity|]. cbn in *. now rewrite IH.
Qed.

Lemma query_times_roundtrip (d : dict (list Q)) :
  all_some
    (map (fun kv => option_map (pair (fst kv)) (floats_of_json (snd kv)))
       (map (fun kv => (fst kv, json_floats (snd kv))) d)) = Some d.
Proof.
  induction d as [|[k l] d IH]; [reflexivity|].
  cbn [map fst snd all_some]. rewrite floats_roundtrip. cbn [option_map].
  now rewrite IH.
Qed.

Lemma metrics_roundtrip (m : Metrics) : metrics_of_json (json_of_metrics m) = Some m.
Proof.
  destruct m as [ts cpu mp mu dr dw q ev].
  unfold metrics_of_json, json_of_metrics, column_of_json.
  cbn -[floats_of_json json_floats all_some].
  rewrite !floats_roundtrip, query_times_roundtrip, events_roundtrip. reflexivity.
Qed.

Lemma system_info_roundtrip (i : SystemInfo) :
  system_info_of_json (json_of_system_info i) = Some i.
Proof. destruct i as [o p [c|] t d]; reflexivity. Qed.

(** Re-reading the saved document gives back the system information and
    the metrics, every list in its original order. *)
Lemma output_data_roundtrip (o : PerformanceMonitor) :
  data_of_json (output_data o) = Some (mkReportData (system_info o) (metrics o)).
Proof.
  unfold data_of_json, output_data.
  cbn -[system_info_of_json json_of_system_info metrics_of_json json_of_metrics].
  rewrite system_info_roundtrip, metrics_roundtrip. reflexivity.
Qed.

(** C7, amended. [save_metrics] writes, at the path it returns, a document
    with exactly the two members [system_info] and [metrics], in that order.
    [system_info] has the five members os, python_version, cpu_count,
    total_memory_gb, duckdb_version. [metrics] has eight members: the six
    sample columns timestamp, cpu_percent, memory_percent, memory_used_mb,
    disk_read_mb and disk_write_mb, each an array of numbers (the samples
    are stored as parallel arrays, not as one array of samples), then
    query_times_ms, an object from query name to an array of milliseconds,
    then events, an array of time/name objects. Every array lists its
    entries in insertion order, so that re-reading the document gives the
    monitor's data back. The monitor itself is unchanged. *)
Theorem save_metrics_document_shape (filename : option string) (s : St) :
  let o := self s in
  let w := world s in
  let r := save_metrics filename s in
  let path :=
    os_path_join (output_dir o)
      match filename with
      | Some f => f
      | None => ("duckdb_perf_" ++ strftime_at (oracle w) (step w) ++ ".json")%string
      end in
  exists sys met : JSON,
    fst r = inr path /\
    self (snd r) = o /\
    dict_get path (files (world (snd r))) =
      Some (FJson (JObject [("system_info", sys); ("metrics", met)])) /\
    json_keys sys =
      ["os"; "python_version"; "cpu_count"; "total_memory_gb"; "duckdb_version"] /\
    json_keys met =
      ["timestamp"; "cpu_percent"; "memory_percent"; "memory_used_mb"; "disk_read_mb";
       "disk_write_mb"; "query_times_ms"; "events"] /\
    (forall c : Column,
       json_member (column_key c) met = Some (JArray (map JFloat (column c (metrics o))))) /\
    json_member "query_times_ms" met =
      Some (JObject (map (fun kv => (fst kv, JArray (map JFloat (snd kv))))
                       (query_times_ms (metrics o)))) /\
    json_member "events" met =
      Some (JArray (map (fun e => JObject [("time", JFloat (time e));
                                           ("name", JString (name e))])
                      (events (metrics o)))) /\
    data_of_json (JObject [("system_info", sys); ("metrics", met)]) =
      Some (mkReportData (system_info o) (metrics o)).
Proof.
  cbv zeta.
  exists (json_of_system_info (system_info (self s))), (json_of_metrics (metrics (self s))).
  split; [destruct filename; reflexivity|].
  split; [destruct filename; reflexivity|].
  split.
  { destruct filename; unfold save_metrics, bind; cbn; apply dict_get_set_same. }
  split; [reflexivity|]. split; [reflexivity|].
  split; [intros c; destruct c; reflexivity|].
  split; [reflexivity|]. split; [reflexivity|].
  apply output_data_roundtrip.
Qed.

(** C7, as stated, fails: the document of a fresh monitor has no member
    that holds the samples as one array, and its two objects do not have
    the member lists the claim gives. *)
Lemma serialized_document_has_no_samples_member :
  exists sys met : JSON,
    output_data (self example_state) = JObject [("system_info", sys); ("metrics", met)] /\
    json_member "samples" met = None /\
    json_member "query_durations" met = None /\
    json_member "engine_version" sys = None /\
    json_member "python_version" sys = Some (JString "3.11.4") /\
    List.length (json_keys met) = 8%nat /\
    List.length (json_keys sys) = 5%nat /\
    ~ (json_keys sys = ["os"; "cpu_count"; "total_memory_gb"; "engine_version"] /\
       json_keys met = ["samples"; "events"; "query_durations"]).
Proof.
  eexists _, _. split; [reflexivity|].
  repeat (split; [reflexivity|]).
  intros [H _]. discriminate H.
Qed.

(** ** Report generation *)

Lemma py_len_nonzero {A : Type} (l : list A) : l <> [] -> ~ py_len l == 0.
Proof.
  intros Hl H. destruct l as [|a l]; [contradiction|].
  unfold py_len in H. cbn [List.length] in H.
  unfold Qeq in H. cbn in H. lia.
Qed.

(** A loop whose body returns on every item returns, and leaves the state
    alone if the body does. *)
Lemma for_each_returns {A B : Type} (f : A -> M B) (l : list A) :
  (forall a, In a l -> forall s, exists b, f a s = (inr b, s)) ->
  forall s, exists bs, for_each f l s = (inr bs, s) /\ List.length bs = List.length l.
Proof.
  induction l as [|a l IH]; intros Hf s.
  - exists []. split; reflexivity.
  - destruct (Hf a (or_introl eq_refl) s) as [b Hb].
    destruct (IH (fun a' Ha' => Hf a' (or_intror Ha')) s) as [bs [Hbs Hlen]].
    exists (b :: bs). cbn [for_each]. unfold bind. rewrite Hb, Hbs.
    split; [reflexivity|]. cbn. now rewrite Hlen.
Qed.

Lemma average_returns (times : list Q) (s : St) :
  times <> [] -> py_div (py_sum times) (py_len times) s = (inr (py_sum times / py_len times), s).
Proof. intros H. apply py_div_ok. now apply py_len_nonzero. Qed.

(** The summary loop returns as long as no query has an empty list of
    durations (which [record_query] never leaves behind). *)
Lemma query_summaries_returns (d : dict (list Q)) (s : St) :
  Forall (fun kv => snd kv <> []) d ->
  exists rows, query_summaries d s = (inr rows, s) /\ List.length rows = List.length d.
Proof.
  intros Hd. unfold query_summaries. apply for_each_returns.
  intros [k times] Hin s'. rewrite Forall_forall in Hd. specialize (Hd _ Hin).
  cbn [snd fst] in *. unfold bind. rewrite (average_returns times s' Hd).
  destruct times as [|x r]; [contradiction|]. cbn. eexists. reflexivity.
Qed.

Lemma plot_query_performance_returns (data : ReportData) (dir : string) (s : St) :
  Forall (fun kv => snd kv <> []) (query_times_ms (data_metrics data)) ->
  exists w', plot_query_performance data dir s = (inr tt, mkSt w' (self s)).
Proof.
  intros Hd. unfold plot_query_performance.
  destruct (query_times_ms (data_metrics data)) as [|kv d] eqn:E.
  - exists (world s). now destruct s.
  - assert (Hbody : forall times, In times (dict_values (kv :: d)) ->
                    forall s', exists b,
                      py_div (py_sum times) (py_len times) s' = (inr b, s')).
    { intros times Hin s'. eexists. apply average_returns.
      unfold dict_values in Hin. apply in_map_iff in Hin as [kv' [<- Hin]].
      rewrite Forall_forall in Hd. now apply Hd. }
    destruct (for_each_returns (fun times => py_div (py_sum times) (py_len times))
                _ Hbody s) as [avgs [Havg _]].
    unfold bind. rewrite Havg. eexists. reflexivity.
Qed.

(** The guarded statistics and the summary loop accept empty input. *)
Lemma summary_tolerates_empty_series (s : St) :
  average_or_zero [] s = (inr 0, s) /\
  max_or_zero [] s = (inr 0, s) /\
  query_summaries [] s = (inr [], s) /\
  (forall data dir,
     query_times_ms (data_metrics data) = [] ->
     plot_query_performance data dir s = (inr tt, s)).
Proof.
  repeat split. intros data dir H. unfold plot_query_performance. now rewrite H.
Qed.

(** [_generate_html_report] on data without samples: the statistics and
    the summary loop pass, then [metrics["timestamp"][-1]] raises. *)
Lemma generate_html_report_without_samples (data : ReportData) (dir : string) (s : St) :
  timestamp (data_metrics data) = [] ->
  cpu_percent (data_metrics data) = [] ->
  memory_used_mb (data_metrics data) = [] ->
  Forall (fun kv => snd kv <> []) (query_times_ms (data_metrics data)) ->
  generate_html_report data dir s = (inl IndexError, s).
Proof.
  intros Ht Hc Hm Hq. unfold generate_html_report, bind.
  rewrite Hc, Hm, Ht. cbn [average_or_zero max_or_zero ret].
  destruct (query_summaries_returns _ s Hq) as [rows [Hrows _]].
  rewrite Hrows. reflexivity.
Qed.

(** C6. The guarded statistics return 0 on an empty series and the summary
    loop returns the empty list on an empty duration table, but report
    generation as a whole does not survive a run without samples: for a
    monitor whose sample columns are all empty (and whose recorded queries
    each have a duration), [generate_report] raises [IndexError] at the
    "Total duration" line, after the two plots were written and before
    [report.html] is. *)
Theorem report_generation_crashes_without_samples (s : St) :
  (forall c : Column, column c (metrics (self s)) = []) ->
  Forall (fun kv => snd kv <> []) (query_times_ms (metrics (self s))) ->
  average_or_zero (cpu_percent (metrics (self s))) s = (inr 0, s) /\
  max_or_zero (cpu_percent (metrics (self s))) s = (inr 0, s) /\
  average_or_zero (memory_used_mb (metrics (self s))) s = (inr 0, s) /\
  max_or_zero (memory_used_mb (metrics (self s))) s = (inr 0, s) /\
  query_summaries [] s = (inr [], s) /\
  fst (generate_report None s) = inl IndexError.
Proof.
  intros Hcols Hq.
  pose proof (Hcols Timestamp) as Ht. pose proof (Hcols CpuPercent) as Hc.
  pose proof (Hcols MemoryUsedMb) as Hm. pose proof (Hcols DiskReadMb) as Hr.
  pose proof (Hcols DiskWriteMb) as Hw. cbn [column] in Ht, Hc, Hm, Hr, Hw.
  rewrite Hc, Hm.
  do 5 (split; [reflexivity|]).
  unfold generate_report, bind. cbn [get_self ret os_makedirs modify_world self world].
  unfold plot_resource_usage, bind. cbn [data_metrics].
  rewrite Ht, Hc, Hm, Hr, Hw. cbn [plt_plot List.length Nat.eqb ret plt_savefig modify_world].
  match goal with
  | |- context [plot_query_performance ?d ?dir ?st] =>
      destruct (plot_query_performance_returns d dir st Hq) as [w' Hplot];
      rewrite Hplot
  end.
  rewrite generate_html_report_without_samples; cbn [data_metrics]; try assumption.
  reflexivity.
Qed.

Lemma report_generation_crashes_without_samples_witness :
  (forall c : Column, column c (metrics (self example_state)) = []) /\
  fst (generate_report None example_state) = inl IndexError.
Proof.
  assert (H : forall c : Column, column c (metrics (self example_state)) = [])
    by (intros c; destruct c; reflexivity).
  split; [exact H|].
  exact (proj2 (proj2 (proj2 (proj2 (proj2
           (report_generation_crashes_without_samples example_state H
              (Forall_nil _))))))).
Defined.

(** The same on the path the benchmark script takes: stop the sampler,
    save the metrics, build the report from the saved file. The metrics
    file and the resource plot are written, [report.html] is not. *)
Lemma finish_run_crashes_without_samples :
  fst (finish_run example_state) = inl IndexError /\
  dict_keys (files (world (snd (finish_run example_state)))) =
    ["./performance_data/duckdb_perf_20240101_000000.json";
     "./performance_data/report/resource_usage.png"].
Proof. split; vm_compute; reflexivity. Qed.

(** ** Reachable monitors *)

Lemma thread_ready_run_call (c : Call) (s : St) :
  thread_ready (self s) -> thread_ready (self (run_call c s)).
Proof.
  intros H. destruct c as [|n|n conn sql|i|]; cbn [run_call].
  - rewrite capture_point_eq. exact H.
  - rewrite record_event_eq. exact H.
  - destruct (conn sql) as [e|result] eqn:E.
    + rewrite (record_query_raises _ _ _ _ _ E). exact H.
    + rewrite (record_query_returns _ _ _ _ _ E). exact H.
  - rewrite start_monitoring_eq. reflexivity.
  - destruct (monitor_thread (self s)) as [t|] eqn:Ht.
    + destruct (started t) eqn:Hs.
      * rewrite (stop_monitoring_with_thread s t Ht Hs).
        unfold thread_ready in *. cbn. now rewrite Ht in *.
      * rewrite (stop_monitoring_unstarted_thread s t Ht Hs).
        unfold thread_ready in *. cbn. now rewrite Ht in *.
    + rewrite (stop_monitoring_without_thread s Ht).
      unfold thread_ready in *. cbn. now rewrite Ht.
Qed.

(** Whatever is called on a new monitor, its thread attribute is either
    absent or a started thread: [stop_monitoring] never meets a thread that
    cannot be joined. *)
Lemma thread_ready_reachable (out_dir : string) (w : World) (cs : list Call) :
  thread_ready (self (run_calls cs (snd (new_monitor out_dir w)))).
Proof.
  assert (H0 : thread_ready (self (snd (new_monitor out_dir w))))
    by (rewrite new_monitor_eq; exact I).
  revert H0. generalize (snd (new_monitor out_dir w)).
  induction cs as [|c cs IH]; intros s H; [exact H|].
  cbn. apply IH. now apply thread_ready_run_call.
Qed.


(** * Further properties of the monitor *)

(** ** Dictionaries *)

Lemma dict_get_none_keys {V : Type} (k : string) (d : dict V) :
  dict_get k d = None <-> ~ In k (dict_keys d).
Proof.
  induction d as [|[k' v'] rest IH]; cbn.
  - tauto.
  - destruct (String.eqb_spec k k') as [->|Hne].
    + split; [discriminate|]. intros H. exfalso. apply H. now left.
    + rewrite IH. split.
      * intros H [Heq|Hin]; [congruence|contradiction].
      * intros H Hin. apply H. now right.
Qed.

Lemma dict_contains_keys {V : Type} (k : string) (d : dict V) :
  dict_contains k d = true <-> In k (dict_keys d).
Proof.
  unfold dict_contains. destruct (dict_get k d) eqn:E.
  - split; [|reflexivity]. intros _.
    destruct (in_dec string_dec k (dict_keys d)) as [Hin|Hnin]; [exact Hin|].
    apply dict_get_none_keys in Hnin. congruence.
  - split; [discriminate|]. intros Hin. apply dict_get_none_keys in E. contradiction.
Qed.

(** Assigning to a key keeps the order of the keys; a new key goes last. *)
Lemma dict_keys_set {V : Type} (k : string) (v : V) (d : dict V) :
  dict_keys (dict_set k v d) =
  if dict_contains k d then dict_keys d else dict_keys d ++ [k].
Proof.
  unfold dict_contains, dict_keys. induction d as [|[k' v'] rest IH]; simpl; [reflexivity|].
  destruct (String.eqb_spec k k') as [->|Hne]; simpl; [reflexivity|].
  rewrite IH. now destruct (dict_get k rest).
Qed.

(** With distinct keys, assigning to a key leaves every other entry and
    nothing else under that key. *)
Lemma dict_set_entries {V : Type} (k : string) (v : V) (d : dict V) (kv : string * V) :
  NoDup (dict_keys d) ->
  In kv (dict_set k v d) -> kv = (k, v) \/ (In kv d /\ fst kv <> k).
Proof.
  unfold dict_keys. induction d as [|[k' v'] rest IH]; simpl; intros Hnd.
  - intros [<-|[]]. now left.
  - inversion Hnd as [|? ? Hnotin Hrest]; subst.
    destruct (String.eqb_spec k k') as [->|Hne]; simpl.
    + intros [<-|Hin]; [now left|].
      right. split; [now right|].
      intros Heq. apply Hnotin. rewrite <- Heq. now apply in_map.
    + intros [<-|Hin].
      * right. split; [now left|]. simpl. congruence.
      * destruct (IH Hrest Hin) as [->|[Hin' Hk]]; [now left|].
        right. split; [now right|exact Hk].
Qed.

Lemma dict_set_nodup {V : Type} (k : string) (v : V) (d : dict V) :
  NoDup (dict_keys d) -> NoDup (dict_keys (dict_set k v d)).
Proof.
  intros Hnd. rewrite dict_keys_set.
  destruct (dict_contains k d) eqn:E; [exact Hnd|].
  assert (Hnotin : ~ In k (dict_keys d)).
  { intros Hin. apply dict_contains_keys in Hin. congruence. }
  apply NoDup_app; [exact Hnd|repeat constructor; intros []|].
  intros x Hx [<-|[]]. contradiction.
Qed.

(** ** What every call does to the store *)

(** The store after a call is the store before it with the call's actions
    applied; only [capture_point] appends to the sample columns, one entry
    to each; no call changes the time origin or the system information. *)
Lemma run_call_metrics (c : Call) (s : St) :
  exists acts : list Action,
    metrics (self (run_call c s)) = store_after acts (metrics (self s)) /\
    (forall col, List.length (column_appends col acts) = if is_capture c then 1%nat else 0%nat) /\
    start_time (self (run_call c s)) = start_time (self s) /\
    system_info (self (run_call c s)) = system_info (self s) /\
    output_dir (self (run_call c s)) = output_dir (self s).
Proof.
  destruct c as [|n|n conn sql|i|]; cbn [run_call is_capture].
  - eexists. split; [apply capture_point_as_actions|].
    rewrite capture_point_eq. split; [intros []; reflexivity|]. now repeat split.
  - eexists. split; [apply record_event_as_actions|].
    rewrite record_event_eq. split; [intros []; reflexivity|]. now repeat split.
  - destruct (conn sql) as [e|result] eqn:E.
    + rewrite (record_query_raises _ _ _ _ _ E).
      exists (event_actions
                (mkEvent (time_at (oracle (world s)) (step (world s)) - start_time (self s))
                   (query_start_name n))).
      split; [reflexivity|]. split; [intros []; reflexivity|]. now repeat split.
    + eexists. split; [apply (record_query_as_actions _ _ _ _ _ E)|].
      rewrite (record_query_returns _ _ _ _ _ E).
      split; [intros []; reflexivity|]. now repeat split.
  - rewrite start_monitoring_eq.
    exists (event_actions
              (mkEvent (time_at (oracle (world s)) (step (world s)) - start_time (self s))
                 "Monitoring started")).
    split; [reflexivity|]. split; [intros []; reflexivity|]. now repeat split.
  - destruct (monitor_thread (self s)) as [t|] eqn:Ht.
    + destruct (started t) eqn:Hs.
      * rewrite (stop_monitoring_with_thread s t Ht Hs).
        exists (event_actions
                  (mkEvent (time_at (oracle (world s)) (S (step (world s))) -
                            start_time (self s)) "Monitoring stopped")).
        split; [reflexivity|]. split; [intros []; reflexivity|]. now repeat split.
      * rewrite (stop_monitoring_unstarted_thread s t Ht Hs).
        exists []. split; [reflexivity|]. split; [intros []; reflexivity|].
        now repeat split.
    + rewrite (stop_monitoring_without_thread s Ht).
      exists (event_actions
                (mkEvent (time_at (oracle (world s)) (step (world s)) - start_time (self s))
                   "Monitoring stopped")).
      split; [reflexivity|]. split; [intros []; reflexivity|]. now repeat split.
Qed.

(** A call leaves the duration table alone, unless it is a [record_query]
    whose operation returned: then the duration between two consecutive
    clock readings goes to the end of the list of that query name. *)
Lemma run_call_query_times (c : Call) (s : St) :
  query_times_ms (metrics (self (run_call c s))) = query_times_ms (metrics (self s)) \/
  exists (q : string) (i : nat),
    query_times_ms (metrics (self (run_call c s))) =
    dict_set q
      (durations_of q (metrics (self s)) ++
       [(time_at (oracle (world s)) (S i) - time_at (oracle (world s)) i) * 1000])
      (query_times_ms (ensure_query_key q (metrics (self s)))).
Proof.
  destruct c as [|n|n conn sql|i|]; cbn [run_call].
  - left. rewrite capture_point_eq. reflexivity.
  - left. rewrite record_event_eq. reflexivity.
  - destruct (conn sql) as [e|result] eqn:E.
    + left. rewrite (record_query_raises _ _ _ _ _ E). reflexivity.
    + right. exists n, (S (step (world s))).
      rewrite (record_query_returns _ _ _ _ _ E).
      cbn [snd self metrics set_metrics query_times_ms append_event set_query_times].
      f_equal. unfold ensure_query_key. cbn [query_times_ms append_event].
      now destruct (negb (dict_contains n (query_times_ms (metrics (self s))))).
  - left. rewrite start_monitoring_eq. reflexivity.
  - left. destruct (monitor_thread (self s)) as [t|] eqn:Ht.
    + destruct (started t) eqn:Hs.
      * now rewrite (stop_monitoring_with_thread s t Ht Hs).
      * now rewrite (stop_monitoring_unstarted_thread s t Ht Hs).
    + now rewrite (stop_monitoring_without_thread s Ht).
Qed.

Lemma extends_refl {A : Type} (l : list A) : extends l l.
Proof. exists []. now rewrite app_nil_r. Qed.

(** X1. The store is append-only: whatever method is called, and whether
    it returns or raises, the events, each sample column and the durations
    of each query name afterwards are what they were before with entries
    added at the end; the time origin, the system information and the
    output directory do not change. *)
Theorem store_is_append_only (c : Call) (s : St) :
  let before := self s in
  let after := self (run_call c s) in
  extends (events (metrics before)) (events (metrics after)) /\
  (forall col : Column, extends (column col (metrics before)) (column col (metrics after))) /\
  (forall q : string,
     extends (durations_of q (metrics before)) (durations_of q (metrics after))) /\
  start_time after = start_time before /\
  system_info after = system_info before /\
  output_dir after = output_dir before.
Proof.
  cbv zeta. destruct (run_call_metrics c s) as (acts & Hm & _ & Hstart & Hinfo & Hdir).
  split; [rewrite Hm, store_after_events; now eexists|].
  split; [intros col; rewrite Hm, store_after_column; now eexists|].
  split; [|now repeat split].
  intros q0. unfold durations_of at 2.
  destruct (run_call_query_times c s) as [Hsame|(q & i & Hset)].
  - rewrite Hsame. apply extends_refl.
  - rewrite Hset. destruct (string_dec q0 q) as [->|Hne].
    + rewrite dict_get_set_same. now eexists.
    + rewrite dict_get_set_other by assumption.
      rewrite durations_other_after_ensure by assumption. apply extends_refl.
Qed.

Lemma count_captures_cons (c : Call) (cs : list Call) :
  count_captures (c :: cs) = ((if is_capture c then 1 else 0) + count_captures cs)%nat.
Proof. unfold count_captures. cbn. now destruct (is_capture c). Qed.

Lemma columns_after_calls (cs : list Call) (s : St) (col : Column) :
  List.length (column col (metrics (self (run_calls cs s)))) =
  (List.length (column col (metrics (self s))) + count_captures cs)%nat.
Proof.
  revert s. induction cs as [|c cs IH]; intros s.
  - cbn. lia.
  - cbn [run_calls fold_left]. fold (run_calls cs (run_call c s)).
    rewrite IH, count_captures_cons.
    destruct (run_call_metrics c s) as (acts & Hm & Hcols & _).
    rewrite Hm, store_after_column, length_app, Hcols. lia.
Qed.

(** X2. On a monitor whose sampler thread is never started, calls made one
    after the other never leave a sample half written: after any sequence
    of calls without [start_monitoring] on a new monitor, each of the six
    sample columns holds exactly as many entries as [capture_point] was
    called. *)
Theorem samples_counted (out_dir : string) (w : World) (cs : list Call) (col : Column) :
  sampler_not_started cs ->
  List.length (column col (metrics (self (run_calls cs (snd (new_monitor out_dir w)))))) =
  count_captures cs.
Proof.
  intros _. rewrite columns_after_calls, new_monitor_eq. now destruct col.
Qed.

Lemma samples_counted_witness :
  let cs := [CallCapturePoint; CallRecordEvent "Creating tables"; CallCapturePoint;
             CallStopMonitoring] in
  sampler_not_started cs /\
  count_captures cs = 2%nat /\
  List.length
    (column CpuPercent
       (metrics (self (run_calls cs (snd (new_monitor "./performance_data" example_world)))))) =
  count_captures cs.
Proof.
  cbv zeta. split; [reflexivity|]. split; [reflexivity|].
  apply (samples_counted "./performance_data" example_world). reflexivity.
Defined.

(** ** The duration table *)

Lemma dict_get_in {V : Type} (k : string) (v : V) (d : dict V) :
  dict_get k d = Some v -> In (k, v) d.
Proof.
  induction d as [|[k' v'] rest IH]; simpl; [discriminate|].
  destruct (String.eqb_spec k k') as [->|Hne].
  - intros [= ->]. now left.
  - intros H. right. now apply IH.
Qed.

Lemma ensure_query_key_nodup (q : string) (m : Metrics) :
  NoDup (dict_keys (query_times_ms m)) ->
  NoDup (dict_keys (query_times_ms (ensure_query_key q m))).
Proof.
  intros H. unfold ensure_query_key.
  destruct (negb (dict_contains q (query_times_ms m))); [|exact H].
  cbn [query_times_ms set_query_times]. now apply dict_set_nodup.
Qed.

(** Entries of the table after [ensure_query_key] under another name were
    there before. *)
Lemma ensure_query_key_entries (q : string) (m : Metrics) (kv : string * list Q) :
  NoDup (dict_keys (query_times_ms m)) ->
  In kv (query_times_ms (ensure_query_key q m)) -> fst kv <> q ->
  In kv (query_times_ms m).
Proof.
  intros Hnd Hin Hne. unfold ensure_query_key in Hin.
  destruct (negb (dict_contains q (query_times_ms m))); [|exact Hin].
  cbn [query_times_ms set_query_times] in Hin.
  destruct (dict_set_entries _ _ _ _ Hnd Hin) as [->|[Hin' _]]; [|exact Hin'].
  now contradiction Hne.
Qed.

(** What holds of every recorded duration list keeps holding after a call,
    if it holds of a list extended by a duration between two consecutive
    clock readings. *)
Lemma table_invariant_run_call (P : list Q -> Prop) (c : Call) (s : St) :
  (forall (l : list Q) (i : nat),
     (l = [] \/ P l) ->
     P (l ++ [(time_at (oracle (world s)) (S i) - time_at (oracle (world s)) i) * 1000])) ->
  NoDup (dict_keys (query_times_ms (metrics (self s)))) ->
  Forall (fun kv => P (snd kv)) (query_times_ms (metrics (self s))) ->
  NoDup (dict_keys (query_times_ms (metrics (self (run_call c s))))) /\
  Forall (fun kv => P (snd kv)) (query_times_ms (metrics (self (run_call c s)))).
Proof.
  intros Hstep Hnd Hall.
  destruct (run_call_query_times c s) as [Hsame|(q & i & Hset)].
  - rewrite Hsame. now split.
  - rewrite Hset. split.
    + apply dict_set_nodup. now apply ensure_query_key_nodup.
    + apply Forall_forall. intros kv Hin.
      destruct (dict_set_entries _ _ _ _ (ensure_query_key_nodup q _ Hnd) Hin)
        as [->|[Hin' Hne]].
      * cbn [snd]. apply Hstep. unfold durations_of.
        destruct (dict_get q (query_times_ms (metrics (self s)))) as [l|] eqn:E;
          [right|now left].
        rewrite Forall_forall in Hall. exact (Hall _ (dict_get_in _ _ _ E)).
      * rewrite Forall_forall in Hall. apply Hall.
        now apply (ensure_query_key_entries q).
Qed.

Lemma table_invariant_run_calls (P : list Q -> Prop) (cs : list Call) (s : St) :
  (forall (o : Oracle) (l : list Q) (i : nat),
     o = oracle (world s) ->
     (l = [] \/ P l) -> P (l ++ [(time_at o (S i) - time_at o i) * 1000])) ->
  NoDup (dict_keys (query_times_ms (metrics (self s)))) ->
  Forall (fun kv => P (snd kv)) (query_times_ms (metrics (self s))) ->
  NoDup (dict_keys (query_times_ms (metrics (self (run_calls cs s))))) /\
  Forall (fun kv => P (snd kv)) (query_times_ms (metrics (self (run_calls cs s)))).
Proof.
  revert s. induction cs as [|c cs IH]; intros s Hstep Hnd Hall; [now split|].
  cbn [run_calls fold_left]. fold (run_calls cs (run_call c s)).
  destruct (table_invariant_run_call P c s (fun l i => Hstep _ l i eq_refl) Hnd Hall)
    as [Hnd' Hall'].
  apply IH; try assumption.
  intros o l i Ho. apply Hstep. now rewrite Ho, run_call_oracle.
Qed.

Lemma wellformed_after_calls (cs : list Call) (s : St) :
  durations_wellformed (metrics (self s)) ->
  durations_wellformed (metrics (self (run_calls cs s))).
Proof.
  intros [Hnd Hall].
  apply (table_invariant_run_calls (fun l => l <> [])); try assumption.
  intros o l i _ _ H. now destruct l.
Qed.

(** X3. After any sequence of calls on a new monitor the duration table
    has each query name once and no name with an empty list of durations:
    the averages the report computes never divide by zero on a monitor's
    own data. *)
Theorem durations_stay_wellformed (out_dir : string) (w : World) (cs : list Call) :
  durations_wellformed (metrics (self (run_calls cs (snd (new_monitor out_dir w))))).
Proof.
  apply wellformed_after_calls. rewrite new_monitor_eq.
  split; constructor.
Qed.

(** X4. With a clock that never goes backward, every duration recorded by
    any sequence of calls on a new monitor is non-negative. *)
Theorem durations_nonnegative (out_dir : string) (w : World) (cs : list Call) :
  clock_monotone (oracle w) ->
  Forall (fun kv => Forall (fun d => 0 <= d) (snd kv))
    (query_times_ms (metrics (self (run_calls cs (snd (new_monitor out_dir w)))))).
Proof.
  intros clock.
  apply (table_invariant_run_calls (fun l => Forall (fun d => 0 <= d) l)).
  - intros o l i Ho Hl. rewrite new_monitor_eq in Ho. cbn in Ho. subst o.
    apply Forall_app. split.
    + destruct Hl as [->|Hl]; [constructor|exact Hl].
    + repeat constructor.
      assert (Hle : time_at (oracle w) i <= time_at (oracle w) (S i))
        by (apply clock; lia).
      lra.
  - rewrite new_monitor_eq. constructor.
  - rewrite new_monitor_eq. constructor.
Qed.

Lemma durations_nonnegative_witness :
  clock_monotone (oracle example_world) /\
  Forall (fun kv => Forall (fun d => 0 <= d) (snd kv))
    (query_times_ms
       (metrics
          (self
             (run_calls
                [CallRecordQuery "Simple Count" example_conn "SELECT COUNT(*) FROM test";
                 CallRecordQuery "Simple Count" example_conn "SELECT COUNT(*) FROM test"]
                (snd (new_monitor "./performance_data" example_world)))))).
Proof.
  split; [exact example_clock_monotone|].
  exact (durations_nonnegative "./performance_data" example_world _ example_clock_monotone).
Defined.

Lemma query_times_append_event (e : Event) (m : Metrics) :
  query_times_ms (append_event e m) = query_times_ms m.
Proof. reflexivity. Qed.

(** X5. The duration table keeps the query names in order of first use:
    a [record_query] that returns leaves the names as they are when the
    name is already there, and puts a new name last; one that raises
    leaves the names as they are. *)
Theorem query_names_in_first_use_order {R : Type} (query_name : string)
    (conn : Connection R) (query_sql : string) (s : St) :
  let before := dict_keys (query_times_ms (metrics (self s))) in
  let after :=
    dict_keys (query_times_ms (metrics (self (snd (record_query query_name conn query_sql s))))) in
  match conn query_sql with
  | inr _ =>
      after = if dict_contains query_name (query_times_ms (metrics (self s)))
              then before else before ++ [query_name]
  | inl _ => after = before
  end.
Proof.
  cbv zeta. destruct (conn query_sql) as [e|result] eqn:E.
  - now rewrite (record_query_raises _ _ _ _ _ E).
  - rewrite (record_query_returns _ _ _ _ _ E).
    cbn [snd self metrics set_metrics query_times_ms append_event set_query_times].
    rewrite dict_keys_set. unfold ensure_query_key.
    rewrite !query_times_append_event.
    destruct (dict_contains query_name (query_times_ms (metrics (self s)))) eqn:Hc;
      cbn [negb query_times_ms set_query_times]; rewrite ?query_times_append_event.
    + now rewrite Hc.
    + rewrite dict_keys_set, Hc.
      assert (Hin : dict_contains query_name
                      (dict_set query_name [] (query_times_ms (metrics (self s)))) = true).
      { unfold dict_contains. now rewrite dict_get_set_same. }
      now rewrite Hin.
Qed.

(** ** When the report can be built *)

Lemma plottable_dec (m : Metrics) : {plottable m} + {~ plottable m}.
Proof.
  unfold plottable.
  destruct (Nat.eq_dec (List.length (cpu_percent m)) (List.length (timestamp m)));
  destruct (Nat.eq_dec (List.length (memory_used_mb m)) (List.length (timestamp m)));
  destruct (Nat.eq_dec (List.length (disk_read_mb m)) (List.length (timestamp m)));
  destruct (Nat.eq_dec (List.length (disk_write_mb m)) (List.length (timestamp m)));
  try (left; tauto); right; tauto.
Qed.

Lemma plt_plot_same_length (label : string) (xs ys : list Q) (s : St) :
  List.length ys = List.length xs -> plt_plot label xs ys s = (inr (label, xs, ys), s).
Proof. intros H. unfold plt_plot. now rewrite H, Nat.eqb_refl. Qed.

Lemma plt_plot_other_length (label : string) (xs ys : list Q) (s : St) :
  List.length ys <> List.length xs ->
  plt_plot label xs ys s = (inl (ValueError "x and y must have same first dimension"), s).
Proof.
  intros H. unfold plt_plot.
  destruct (Nat.eqb_spec (List.length xs) (List.length ys)) as [Heq|_]; [|reflexivity].
  now contradiction H.
Qed.

(** X7. [_plot_resource_usage] writes [resource_usage.png] and returns
    exactly when the CPU, memory and the two disk columns are as long as
    the timestamp column; otherwise it raises matplotlib's [ValueError]
    and writes nothing. (The memory-percent column is not plotted and
    does not matter.) *)
Theorem plot_resource_usage_needs_equal_lengths (data : ReportData) (dir : string) (s : St) :
  (plottable (data_metrics data) ->
   exists fig : Figure,
     plot_resource_usage data dir s =
     (inr tt,
      mkSt (put_file (os_path_join dir "resource_usage.png") (FPng fig) (world s)) (self s))) /\
  (~ plottable (data_metrics data) ->
   plot_resource_usage data dir s =
   (inl (ValueError "x and y must have same first dimension"), s)).
Proof.
  unfold plottable, plot_resource_usage, bind. split.
  - intros (Hc & Hm & Hr & Hw).
    rewrite (plt_plot_same_length _ _ _ _ Hc), (plt_plot_same_length _ _ _ _ Hm),
      (plt_plot_same_length _ _ _ _ Hr), (plt_plot_same_length _ _ _ _ Hw).
    eexists. reflexivity.
  - intros Hnot.
    destruct (Nat.eq_dec (List.length (cpu_percent (data_metrics data)))
                (List.length (timestamp (data_metrics data)))) as [Hc|Hc];
      [rewrite (plt_plot_same_length _ _ _ _ Hc)
      |now rewrite (plt_plot_other_length _ _ _ _ Hc)].
    destruct (Nat.eq_dec (List.length (memory_used_mb (data_metrics data)))
                (List.length (timestamp (data_metrics data)))) as [Hm|Hm];
      [rewrite (plt_plot_same_length _ _ _ _ Hm)
      |now rewrite (plt_plot_other_length _ _ _ _ Hm)].
    destruct (Nat.eq_dec (List.length (disk_read_mb (data_metrics data)))
                (List.length (timestamp (data_metrics data)))) as [Hr|Hr];
      [rewrite (plt_plot_same_length _ _ _ _ Hr)
      |now rewrite (plt_plot_other_length _ _ _ _ Hr)].
    destruct (Nat.eq_dec (List.length (disk_write_mb (data_metrics data)))
                (List.length (timestamp (data_metrics data)))) as [Hw|Hw];
      [|now rewrite (plt_plot_other_length _ _ _ _ Hw)].
    exfalso. apply Hnot. now repeat split.
Qed.

Lemma plot_resource_usage_needs_equal_lengths_witness :
  plottable (append_column Timestamp 3 (append_column CpuPercent 50
               (append_column MemoryUsedMb 2 (append_column DiskReadMb 6
                  (append_column DiskWriteMb 12 empty_metrics))))) /\
  ~ plottable (append_column Timestamp 3 empty_metrics) /\
  fst (plot_resource_usage
         (mkReportData (system_info (self example_state))
            (append_column Timestamp 3 empty_metrics))
         "./performance_data/report" example_state) =
  inl (ValueError "x and y must have same first dimension").
Proof.
  split; [now repeat split|].
  assert (H : ~ plottable (append_column Timestamp 3 empty_metrics))
    by (intros [H _]; discriminate H).
  split; [exact H|].
  rewrite (proj2 (plot_resource_usage_needs_equal_lengths
                    (mkReportData (system_info (self example_state))
                       (append_column Timestamp 3 empty_metrics))
                    "./performance_data/report" example_state) H).
  reflexivity.
Defined.

Lemma average_or_zero_returns (l : list Q) (s : St) :
  exists v, average_or_zero l s = (inr v, s).
Proof.
  destruct l as [|x r]; [now exists 0|].
  eexists. unfold average_or_zero. now apply average_returns.
Qed.

Lemma max_or_zero_returns (l : list Q) (s : St) :
  exists v, max_or_zero l s = (inr v, s).
Proof. destruct l as [|x r]; eexists; reflexivity. Qed.






(** ** Data the monitor did not produce *)

(** A loop stops at the first item whose body raises. *)
Lemma for_each_raises {A B : Type} (f : A -> M B) (pre post : list A) (a : A)
    (e : Exn) (s : St) :
  (forall x, In x pre -> forall s', exists b, f x s' = (inr b, s')) ->
  f a s = (inl e, s) ->
  for_each f (pre ++ a :: post) s = (inl e, s).
Proof.
  intros Hpre Ha. induction pre as [|x pre IH]; cbn [app for_each]; unfold bind.
  - now rewrite Ha.
  - destruct (Hpre x (or_introl eq_refl) s) as [b ->].
    rewrite IH; [reflexivity|]. intros y Hy. apply Hpre. now right.
Qed.

(** X8. On data in which some query name has an empty list of durations
    (a metrics file written by something other than the monitor), the
    average [sum(times) / len(times)] raises [ZeroDivisionError]: the query
    plot raises it and writes no file, and so does the HTML report. *)
Theorem empty_duration_list_divides_by_zero (data : ReportData) (dir : string) (s : St)
    (pre post : dict (list Q)) (k : string) :
  query_times_ms (data_metrics data) = pre ++ (k, []) :: post ->
  Forall (fun kv => snd kv <> []) pre ->
  plot_query_performance data dir s = (inl ZeroDivisionError, s) /\
  generate_html_report data dir s = (inl ZeroDivisionError, s).
Proof.
  intros Hq Hpre. split.
  - unfold plot_query_performance. rewrite Hq.
    destruct (pre ++ (k, []) :: post) as [|kv rest] eqn:E;
      [now destruct pre|].
    rewrite <- E. unfold bind, dict_values. rewrite map_app. cbn [map snd].
    rewrite (for_each_raises _ (map snd pre) (map snd post) [] ZeroDivisionError s);
      [reflexivity| |reflexivity].
    intros times Hin s'. eexists. apply average_returns.
    apply in_map_iff in Hin as [kv' [<- Hin]].
    rewrite Forall_forall in Hpre. now apply Hpre.
  - unfold generate_html_report, bind.
    destruct (average_or_zero_returns (cpu_percent (data_metrics data)) s) as [v1 ->].
    destruct (max_or_zero_returns (cpu_percent (data_metrics data)) s) as [v2 ->].
    destruct (average_or_zero_returns (memory_used_mb (data_metrics data)) s) as [v3 ->].
    destruct (max_or_zero_returns (memory_used_mb (data_metrics data)) s) as [v4 ->].
    unfold query_summaries. rewrite Hq.
    rewrite (for_each_raises _ pre post (k, []) ZeroDivisionError s);
      [reflexivity| |reflexivity].
    intros [k' times] Hin s'. rewrite Forall_forall in Hpre. specialize (Hpre _ Hin).
    cbn [snd fst] in *. unfold bind. rewrite (average_returns times s' Hpre).
    destruct times as [|x r]; [contradiction|]. cbn. eexists. reflexivity.
Qed.

Lemma empty_duration_list_divides_by_zero_witness :
  let data :=
    mkReportData (system_info (self example_state))
      (set_query_times [("Simple Count", [12]); ("Group By", [])] empty_metrics) in
  query_times_ms (data_metrics data) =
    [("Simple Count", [12])] ++ ("Group By", []) :: [] /\
  fst (plot_query_performance data "./performance_data/report" example_state) =
    inl ZeroDivisionError.
Proof.
  cbv zeta. split; [reflexivity|].
  destruct (empty_duration_list_divides_by_zero
              (mkReportData (system_info (self example_state))
                 (set_query_times [("Simple Count", [12]); ("Group By", [])] empty_metrics))
              "./performance_data/report" example_state
              [("Simple Count", [12])] [] "Group By" eq_refl)
    as [H _].
  - repeat constructor. discriminate.
  - rewrite H. reflexivity.
Defined.

(** X11. [generate_report(metrics_file)] with a file that is not there
    raises [FileNotFoundError] before it creates the report directory or
    writes anything. *)
Theorem generate_report_missing_file (path : string) (s : St) :
  dict_get path (files (world s)) = None ->
  generate_report (Some path) s = (inl (FileNotFoundError path), s).
Proof.
  intros H. unfold generate_report, bind, json_load, bind.
  cbn [get_world]. rewrite H. reflexivity.
Qed.

Lemma generate_report_missing_file_witness :
  dict_get "metrics.json" (files (world example_state)) = None /\
  generate_report (Some "metrics.json") example_state =
    (inl (FileNotFoundError "metrics.json"), example_state).
Proof.
  split; [reflexivity|].
  exact (generate_report_missing_file "metrics.json" example_state eq_refl).
Defined.

(** [json.load] of the file [save_metrics] has just written gives the
    monitor's own data. *)
Lemma json_load_after_save (filename : option string) (s : St) :
  let saved := save_metrics filename s in
  exists path : string,
    fst saved = inr path /\
    self (snd saved) = self s /\
    json_load path (snd saved) =
      (inr (mkReportData (system_info (self s)) (metrics (self s))), snd saved).
Proof.
  cbv zeta. unfold save_metrics, bind.
  destruct filename as [f|]; cbn [ret ask get_self modify_world print self world fst snd];
    eexists; (split; [reflexivity|]); (split; [reflexivity|]);
    unfold json_load, bind; cbn [get_world world files emit put_file];
    rewrite dict_get_set_same, output_data_roundtrip; reflexivity.
Qed.

(** X10. Saving and then reporting from the saved file is the same as
    reporting from memory: after [save_metrics], [generate_report] on the
    returned path has the result and the effects of [generate_report()]. *)
Theorem report_from_saved_file_equals_report_from_memory (filename : option string) (s : St) :
  let saved := save_metrics filename s in
  exists path : string,
    fst saved = inr path /\
    generate_report (Some path) (snd saved) = generate_report None (snd saved).
Proof.
  cbv zeta. destruct (json_load_after_save filename s) as (path & Hp & Hself & Hload).
  exists path. split; [exact Hp|].
  unfold generate_report, bind. rewrite Hload.
  cbn [get_self ret]. now rewrite Hself.
Qed.

(** ** The per-query summary *)

Lemma fold_max_spec (r : list Q) (x : Q) :
  let v := fold_left (fun best item => if Qgtb item best then item else best) r x in
  In v (x :: r) /\ x <= v /\ Forall (fun y => y <= v) r.
Proof.
  revert x. induction r as [|y r IH]; intros x; cbn [fold_left].
  - split; [now left|]. split; [apply Qle_refl|constructor].
  - destruct (Qgtb y x) eqn:E.
    + apply Qgtb_true in E. destruct (IH y) as (Hin & Hle & Hall).
      split; [now right|]. split; [lra|]. now constructor.
    + assert (Hyx : y <= x).
      { destruct (Qlt_le_dec x y) as [Hlt|Hle]; [|exact Hle].
        apply Qgtb_true in Hlt. congruence. }
      destruct (IH x) as (Hin & Hle & Hall).
      split; [destruct Hin as [<-|Hin]; [now left|now right; right]|].
      split; [exact Hle|]. constructor; [lra|exact Hall].
Qed.

Lemma fold_min_spec (r : list Q) (x : Q) :
  let v := fold_left (fun best item => if Qgtb best item then item else best) r x in
  In v (x :: r) /\ v <= x /\ Forall (fun y => v <= y) r.
Proof.
  revert x. induction r as [|y r IH]; intros x; cbn [fold_left].
  - split; [now left|]. split; [apply Qle_refl|constructor].
  - destruct (Qgtb x y) eqn:E.
    + apply Qgtb_true in E. destruct (IH y) as (Hin & Hle & Hall).
      split; [now right|]. split; [lra|]. now constructor.
    + assert (Hxy : x <= y).
      { destruct (Qlt_le_dec y x) as [Hlt|Hle]; [|exact Hle].
        apply Qgtb_true in Hlt. congruence. }
      destruct (IH x) as (Hin & Hle & Hall).
      split; [destruct Hin as [<-|Hin]; [now left|now right; right]|].
      split; [exact Hle|]. constructor; [lra|exact Hall].
Qed.

(** The same loop lemma, keeping a relation between items and results. *)
Lemma for_each_related {A B : Type} (rel : A -> B -> Prop) (f : A -> M B) (l : list A) :
  (forall a, In a l -> forall s, exists b, f a s = (inr b, s) /\ rel a b) ->
  forall s, exists bs, for_each f l s = (inr bs, s) /\ Forall2 rel l bs.
Proof.
  induction l as [|a l IH]; intros Hf s.
  - exists []. split; [reflexivity|constructor].
  - destruct (Hf a (or_introl eq_refl) s) as [b [Hb Hrel]].
    destruct (IH (fun a' Ha' => Hf a' (or_intror Ha')) s) as [bs [Hbs Hall]].
    exists (b :: bs). cbn [for_each]. unfold bind. rewrite Hb, Hbs.
    split; [reflexivity|now constructor].
Qed.

(** X9. The summary of a duration table without empty lists has one row
    per query name, in the table's order; each row counts the durations of
    its name, and its minimum and its maximum are durations of that name
    that bound all the others. (Nothing is said about the average: it is a
    rounded quotient in the code.) *)
Theorem query_summaries_are_sound (d : dict (list Q)) (s : St) :
  Forall (fun kv => snd kv <> []) d ->
  exists rows : list QuerySummary,
    query_summaries d s = (inr rows, s) /\
    Forall2
      (fun kv row =>
         summary_name row = fst kv /\
         count row = List.length (snd kv) /\
         In (min_ms row) (snd kv) /\
         In (max_ms row) (snd kv) /\
         Forall (fun x => min_ms row <= x /\ x <= max_ms row) (snd kv))
      d rows.
Proof.
  intros Hd. unfold query_summaries. apply for_each_related.
  intros [k times] Hin s'. rewrite Forall_forall in Hd. specialize (Hd _ Hin).
  cbn [snd fst] in *. unfold bind. rewrite (average_returns times s' Hd).
  destruct times as [|x r]; [contradiction|].
  cbn [py_min py_max ret].
  destruct (fold_min_spec r x) as (Hmin_in & Hmin_x & Hmin_all).
  destruct (fold_max_spec r x) as (Hmax_in & Hmax_x & Hmax_all).
  eexists. split; [reflexivity|]. cbn [summary_name count min_ms max_ms avg_ms].
  assert (Hlo : Forall (fun y => fold_left
                   (fun best item => if Qgtb best item then item else best) r x <= y)
                  (x :: r)) by now constructor.
  assert (Hhi : Forall (fun y => y <= fold_left
                   (fun best item => if Qgtb item best then item else best) r x)
                  (x :: r)) by now constructor.
  split; [reflexivity|]. split; [reflexivity|].
  split; [exact Hmin_in|]. split; [exact Hmax_in|].
  rewrite Forall_forall in *. intros y Hy. split; [now apply Hlo|now apply Hhi].
Qed.

Lemma query_summaries_are_sound_witness :
  Forall (fun kv : string * list Q => snd kv <> [])
    [("Simple Count", [12; 8]); ("Group By", [30])] /\
  exists rows : list QuerySummary,
    query_summaries [("Simple Count", [12; 8]); ("Group By", [30])] example_state =
      (inr rows, example_state) /\
    map summary_name rows = ["Simple Count"; "Group By"] /\
    map count rows = [2%nat; 1%nat].
Proof.
  assert (H : Forall (fun kv : string * list Q => snd kv <> [])
                [("Simple Count", [12; 8]); ("Group By", [30])])
    by (repeat constructor; discriminate).
  split; [exact H|].
  destruct (query_summaries_are_sound _ example_state H) as (rows & Hrows & Hrel).
  exists rows. split; [exact Hrows|].
  inversion Hrel as [|kv1 r1 d1 rs1 (Hn1 & Hc1 & _) Hrest]; subst.
  inversion Hrest as [|kv2 r2 d2 rs2 (Hn2 & Hc2 & _) Hnil]; subst.
  inversion Hnil; subst. cbn [map]. rewrite Hn1, Hn2, Hc1, Hc2. split; reflexivity.
Defined.

(** ** Starting, sampling, stopping *)

(** X12. [start_monitoring(interval)], then [record_event(a)], then
    [stop_monitoring()] add the three events "Monitoring started", [a],
    "Monitoring stopped" to the event log in this order; the calling thread
    starts one thread and joins it once with timeout 2, whatever the join
    answers; afterwards the flag is clear and the interval is the one
    given. (Nothing is said about the samples: they are the sampler
    thread's.) *)
Theorem start_record_stop (interval : Q) (a : string) (s : St) :
  let s' := run_calls [CallStartMonitoring interval; CallRecordEvent a; CallStopMonitoring] s in
  map name (events (metrics (self s'))) =
    map name (events (metrics (self s))) ++ ["Monitoring started"; a; "Monitoring stopped"] /\
  (exists exited : bool,
     trace (world s') = trace (world s) ++ [EThreadStart; EJoin 2 exited]) /\
  monitoring (self s') = false /\
  monitor_interval (self s') = interval.
Proof.
  cbv zeta. cbn [run_calls fold_left run_call].
  rewrite start_monitoring_eq. cbn [snd]. rewrite record_event_eq. cbn [snd].
  rewrite (stop_monitoring_with_thread _ (mkThread true true)) by reflexivity.
  cbn [snd self world metrics set_metrics events append_event trace tick emit
       oracle step monitoring set_monitoring monitor_interval set_monitor_interval
       set_monitor_thread start_time].
  split; [rewrite !map_app, <- !app_assoc; reflexivity|].
  split; [eexists; rewrite <- app_assoc; reflexivity|].
  split; reflexivity.
Qed.







(** * The benchmark script *)

(** ** The report block *)






(** ** Splitting the rows into chunks *)

Lemma py_range_succ (n : nat) :
  py_range (Z.of_nat (S n)) = py_range (Z.of_nat n) ++ [Z.of_nat n].
Proof.
  unfold py_range. rewrite !Nat2Z.id, seq_S, map_app. reflexivity.
Qed.

(** The rows of the first [k] chunks, while the [k]-th chunk still starts
    inside the data. *)
Lemma rows_of_first_chunks (ROW_COUNT : Z) (k : nat) :
  (0 <= ROW_COUNT)%Z ->
  (Z.of_nat k * CHUNK_SIZE < ROW_COUNT + CHUNK_SIZE)%Z ->
  fold_right Z.add 0%Z (map (rows_in_chunk ROW_COUNT) (py_range (Z.of_nat k))) =
  Z.min (Z.of_nat k * CHUNK_SIZE) ROW_COUNT.
Proof.
  intros Hpos. unfold CHUNK_SIZE. induction k as [|k IH]; intros Hk.
  - cbn. lia.
  - rewrite py_range_succ, map_app, fold_right_app. cbn [map fold_right].
    assert (Hshift : forall (l : list Z) (a : Z),
               fold_right Z.add a l = (fold_right Z.add 0 l + a)%Z).
    { induction l as [|x l IHl]; intros a; cbn; [lia|]. rewrite IHl. lia. }
    rewrite Hshift, IH by lia. unfold rows_in_chunk, CHUNK_SIZE. lia.
Qed.

Lemma chunk_count_bounds (ROW_COUNT : Z) :
  (0 < ROW_COUNT)%Z ->
  (1 <= chunk_count ROW_COUNT)%Z /\
  ((chunk_count ROW_COUNT - 1) * CHUNK_SIZE < ROW_COUNT)%Z /\
  (ROW_COUNT <= chunk_count ROW_COUNT * CHUNK_SIZE)%Z.
Proof.
  intros Hpos. unfold chunk_count, CHUNK_SIZE.
  pose proof (Z.div_mod (ROW_COUNT + 10000000 - 1) 10000000 ltac:(lia)) as Hdm.
  pose proof (Z.mod_pos_bound (ROW_COUNT + 10000000 - 1) 10000000 ltac:(lia)) as Hm.
  lia.
Qed.

(** X15. The generation loop splits the rows exactly: for a positive
    [ROW_COUNT] the chunks are numbered 0, 1, ... without a gap, every chunk
    has between 1 and [CHUNK_SIZE] rows, every chunk but the last has
    [CHUNK_SIZE] rows, and the rows of all chunks add up to [ROW_COUNT].
    For a [ROW_COUNT] of zero or less no chunk is generated. *)
Theorem chunks_split_rows_exactly (ROW_COUNT : Z) :
  let plan := chunk_plan ROW_COUNT in
  ((ROW_COUNT <= 0)%Z -> plan = []) /\
  ((0 < ROW_COUNT)%Z ->
   map fst plan = py_range (chunk_count ROW_COUNT) /\
   Z.of_nat (List.length plan) = chunk_count ROW_COUNT /\
   fold_right Z.add 0%Z (map snd plan) = ROW_COUNT /\
   Forall (fun p => (1 <= snd p <= CHUNK_SIZE)%Z) plan /\
   Forall (fun p => (fst p < chunk_count ROW_COUNT - 1)%Z -> snd p = CHUNK_SIZE) plan).
Proof.
  cbv zeta. unfold chunk_plan. split.
  - intros Hle. unfold chunk_count, CHUNK_SIZE, py_range.
    assert (H : ((ROW_COUNT + 10000000 - 1) / 10000000 <= 0)%Z).
    { pose proof (Z.div_mod (ROW_COUNT + 10000000 - 1) 10000000 ltac:(lia)).
      pose proof (Z.mod_pos_bound (ROW_COUNT + 10000000 - 1) 10000000 ltac:(lia)).
      lia. }
    destruct ((ROW_COUNT + 10000000 - 1) / 10000000)%Z; try lia; reflexivity.
  - intros Hpos. destruct (chunk_count_bounds ROW_COUNT Hpos) as (Hn & Hlo & Hhi).
    assert (Hmem : forall i, In i (py_range (chunk_count ROW_COUNT)) ->
                             (0 <= i < chunk_count ROW_COUNT)%Z).
    { intros i Hi. unfold py_range in Hi. apply in_map_iff in Hi as [j [<- Hj]].
      apply in_seq in Hj. lia. }
    split; [rewrite map_map; cbn [fst]; apply map_id|].
    split; [rewrite length_map; unfold py_range; rewrite length_map, length_seq; lia|].
    split.
    { rewrite map_map. cbn [snd].
      rewrite <- (Z2Nat.id (chunk_count ROW_COUNT)) at 1 by lia.
      rewrite rows_of_first_chunks; rewrite ?Z2Nat.id; lia. }
    split; apply Forall_forall; intros p Hp; apply in_map_iff in Hp as [i [<- Hi]];
      apply Hmem in Hi; cbn [fst snd]; unfold rows_in_chunk, CHUNK_SIZE in *; [lia|].
    intros Hi'. nia.
Qed.

Lemma chunks_split_rows_exactly_witness :
  (0 < 25000000)%Z /\
  chunk_plan 25000000 = [(0, 10000000); (1, 10000000); (2, 5000000)]%Z /\
  fold_right Z.add 0%Z (map snd (chunk_plan 25000000)) = 25000000%Z.
Proof.
  split; [lia|]. split; [reflexivity|].
  exact (proj1 (proj2 (proj2 (proj2 (chunks_split_rows_exactly 25000000) eq_refl)))).
Defined.

(** ** The first timestamp of a chunk *)

(** X16. The start date [generate_parquet_file] computes never has an
    hour the [datetime] constructor rejects, for any integers. When the
    offset [chunk_id * (row_count // CITY_COUNT)] is not negative, the
    result is the moment that many hours after 2020-01-01 00:00, with an
    hour of the day between 0 and 23, as long as that day is no later than
    9999-12-31; beyond it the addition of the days overflows. *)
Theorem chunk_start_is_offset_hours_after_base (chunk_id row_count : Z) :
  let offset := hours_offset chunk_id row_count in
  chunk_start_date chunk_id row_count <> inl HourOutOfRange /\
  ((0 <= offset)%Z -> (offset / 24 <= last_day)%Z ->
   exists d : datetime,
     chunk_start_date chunk_id row_count = inr d /\
     hours_since_base d = offset /\
     (0 <= dt_hour d < 24)%Z /\
     (0 <= dt_day d <= last_day)%Z) /\
  ((last_day < offset / 24)%Z ->
   chunk_start_date chunk_id row_count = inl DateOutOfRange).
Proof.
  cbv zeta. unfold chunk_start_date, datetime_2020_01_01.
  set (offset := hours_offset chunk_id row_count).
  pose proof (Z.mod_pos_bound offset 24 ltac:(lia)) as Hmod.
  pose proof (Z.div_mod offset 24 ltac:(lia)) as Hdm.
  assert (Hhour : ((0 <=? offset mod 24) && (offset mod 24 <? 24))%Z = true).
  { apply andb_true_iff. split; [apply Z.leb_le|apply Z.ltb_lt]; lia. }
  rewrite Hhour. unfold add_days, last_day. cbn [dt_day dt_hour].
  split.
  - destruct (offset / 24 >? 0)%Z; [|discriminate].
    destruct (0 + offset / 24 <=? 2914634)%Z; discriminate.
  - split.
    + intros Hpos Hday.
      destruct (offset / 24 >? 0)%Z eqn:Hd.
      * assert (Hle : (0 + offset / 24 <=? 2914634)%Z = true) by (apply Z.leb_le; lia).
        rewrite Hle. eexists. split; [reflexivity|].
        unfold hours_since_base. cbn [dt_day dt_hour].
        apply Z.gtb_lt in Hd. repeat split; lia.
      * eexists. split; [reflexivity|].
        unfold hours_since_base. cbn [dt_day dt_hour].
        assert (offset / 24 <= 0)%Z by (destruct (Z.gtb_spec (offset / 24) 0); [discriminate|lia]).
        repeat split; lia.
    + intros Hlate.
      assert (Hd : (offset / 24 >? 0)%Z = true) by (apply Z.gtb_lt; lia).
      rewrite Hd.
      destruct (Z.leb_spec (0 + offset / 24) 2914634); [lia|reflexivity].
Qed.

Lemma chunk_start_is_offset_hours_after_base_witness :
  (0 <= hours_offset 3 10000000)%Z /\
  (hours_offset 3 10000000 / 24 <= last_day)%Z /\
  chunk_start_date 3 10000000 = inr (mkDatetime 1250 0) /\
  hours_since_base (mkDatetime 1250 0) = 30000%Z.
Proof.
  assert (H1 : (0 <= hours_offset 3 10000000)%Z) by (vm_compute; discriminate).
  assert (H2 : (hours_offset 3 10000000 / 24 <= last_day)%Z) by (vm_compute; discriminate).
  split; [exact H1|]. split; [exact H2|].
  destruct (proj1 (proj2 (chunk_start_is_offset_hours_after_base 3 10000000)) H1 H2)
    as (d & Hd & Hh & _).
  assert (Hdate : chunk_start_date 3 10000000 = inr (mkDatetime 1250 0)) by reflexivity.
  split; [exact Hdate|]. rewrite Hdate in Hd. injection Hd as <-. exact Hh.
Defined.

(** X17. Chunks start where the rows of the chunks before them end only
    while every chunk is full: chunk [i] with [CHUNK_SIZE] rows starts
    [i * 10000] hours after the base, the hours its predecessors span. The
    offset is computed from the chunk's own row count, so a chunk with
    fewer rows starts at [i * (row_count // 1000)] hours, which for [i > 0]
    is before that point. *)
Theorem chunk_offsets_follow_own_row_count (i row_count : Z) :
  hours_offset i CHUNK_SIZE = (i * 10000)%Z /\
  hours_offset (i + 1) CHUNK_SIZE = (hours_offset i CHUNK_SIZE + CHUNK_SIZE / CITY_COUNT)%Z /\
  ((0 < i)%Z -> (0 <= row_count < CHUNK_SIZE)%Z ->
   (hours_offset i row_count < hours_offset i CHUNK_SIZE)%Z /\
   (hours_offset i row_count <= i * 9999)%Z).
Proof.
  unfold hours_offset, CHUNK_SIZE, CITY_COUNT.
  change (10000000 / 1000)%Z with 10000%Z.
  split; [reflexivity|]. split; [lia|].
  intros Hi Hr.
  assert (Hq : (0 <= row_count / 1000 <= 9999)%Z).
  { pose proof (Z.div_mod row_count 1000 ltac:(lia)).
    pose proof (Z.mod_pos_bound row_count 1000 ltac:(lia)). lia. }
  split; nia.
Qed.

Lemma chunk_offsets_follow_own_row_count_witness :
  (0 < 2)%Z /\ (0 <= 5000000 < CHUNK_SIZE)%Z /\
  hours_offset 2 5000000 = 10000%Z /\
  hours_offset 1 CHUNK_SIZE = 10000%Z /\
  (hours_offset 2 5000000 < hours_offset 2 CHUNK_SIZE)%Z.
Proof.
  split; [lia|]. split; [unfold CHUNK_SIZE; lia|].
  split; [reflexivity|]. split; [reflexivity|].
  exact (proj1 (proj2 (proj2 (chunk_offsets_follow_own_row_count 2 5000000))
                  ltac:(lia) ltac:(unfold CHUNK_SIZE; lia))).
Defined.
